(** * cpuidle-powernv: the PowerNV idle-state driver

    A shallow embedding of [drivers/cpuidle/cpuidle-powernv.c] and the
    properties of its state table, snooze timeout, entry routines and
    hotplug notifier.

    Conventions of the embedding:
    - C integers are [Z]; where the source computes in a fixed width the
      wrap-around is written out ([u64], [to_int]).
    - [struct cpuidle_state] arrays are lists read with stdpp's [!!]; an
      access outside the array is not given a value: the routine stops with
      [Fault], naming the access.
    - device-tree properties are the raw big-endian bytes the firmware
      provides; [be32_to_cpu] decodes them.
    - calls into the rest of the kernel and hardware primitives are recorded,
      in program order, in an event trace. *)

From Stdlib Require Import ZArith Lia.
From Stdlib.Init Require Import Byte.
From stdpp Require Import base option list sorting strings gmap.

Local Open Scope Z_scope.

(** ** Constants that live in kernel headers

    The driver includes [linux/cpuidle.h], [linux/cpu.h], [linux/notifier.h],
    [linux/kernel.h] and [asm/reg.h]; the values they
    define are parameters of the development, as is what the sleep
    instruction leaves in the LPCR when the thread wakes up. *)

Class platform := Platform {
  CPUIDLE_FLAG_TIME_VALID : Z;
  CPUIDLE_FLAG_TIMER_STOP : Z;
  CPU_ONLINE : Z;
  CPU_ONLINE_FROZEN : Z;
  CPU_DEAD : Z;
  CPU_DEAD_FROZEN : Z;
  NOTIFY_DONE : Z;
  NOTIFY_OK : Z;
  LPCR_MER : Z;
  LPCR_PECE : Z;
  LPCR_PECE0 : Z;
  SYSTEM_RUNNING : Z;
  (** LPCR contents found after [power7_sleep ()] returns, as a function of
      the contents at entry. *)
  power7_sleep_lpcr : Z -> Z;
}.

(** Constants the driver defines itself. *)

Definition MAX_POWERNV_IDLE_STATES : Z := 8.
Definition IDLE_USE_INST_NAP : Z := 0x00010000.
Definition IDLE_USE_INST_SLEEP : Z := 0x00020000.

(** ** Fixed-width arithmetic *)

Definition u64 (z : Z) : Z := z mod 2 ^ 64.

Definition to_int (z : Z) : Z := (z + 2 ^ 31) mod 2 ^ 32 - 2 ^ 31.

(** ** Outcomes *)

Inductive fault :=
  | StoreOutOfBounds (array : string) (idx : Z)
  | LoadOutOfBounds (array : string) (idx : Z)
  | IntOverflow.

Inductive outcome (A : Type) :=
  | Ok (a : A)
  | Fault (f : fault)
  | OutOfFuel.

Arguments Ok {A} a.
Arguments Fault {A} f.
Arguments OutOfFuel {A}.

Definition obind {A B} (m : outcome A) (k : A -> outcome B) : outcome B :=
  match m with
  | Ok a => k a
  | Fault f => Fault f
  | OutOfFuel => OutOfFuel
  end.

Notation "'do' x <- m ; k" := (obind m (fun x => k))
  (at level 10, x pattern, m at level 100, k at level 200).

(** ** Data model *)

(** The [enter] callback of a state is one of the three routines below, or
    [NULL]. *)
Inductive enter_fn := fn_snooze_loop | fn_nap_loop | fn_fastsleep_loop.

(** The fields of [struct cpuidle_state] the driver touches. *)
Record cpuidle_state := CpuidleState {
  name : string;
  desc : string;
  flags : Z;
  exit_latency : Z;
  target_residency : Z;
  disabled : bool;
  enter : option enter_fn;
}.

Record cpuidle_state_usage := CpuidleStateUsage {
  disable : Z;
}.

Record cpuidle_driver := CpuidleDriver {
  states : list cpuidle_state;
  state_count : Z;
}.

Record cpuidle_device := CpuidleDevice {
  states_usage : list cpuidle_state_usage;
  enabled : bool;
}.

(** The driver's file-scope variables, the two kernel variables it reads
    ([tb_ticks_per_usec], [system_state]) and the kernel log. *)
Record globals := Globals {
  powernv_states : list cpuidle_state;
  default_snooze_timeout : Z;
  snooze_timeout_en : bool;
  tb_ticks_per_usec : Z;
  system_state : Z;
  kmsg : list string;
}.

Definition set_powernv_states (t : list cpuidle_state) (g : globals) : globals :=
  {| powernv_states := t;
     default_snooze_timeout := default_snooze_timeout g;
     snooze_timeout_en := snooze_timeout_en g;
     tb_ticks_per_usec := tb_ticks_per_usec g;
     system_state := system_state g;
     kmsg := kmsg g |}.

(** The line feed that ends each logged line. *)
Definition LF : string := String (Ascii.ascii_of_nat 10) EmptyString.

Definition pr_warn (msg : string) (g : globals) : globals :=
  {| powernv_states := powernv_states g;
     default_snooze_timeout := default_snooze_timeout g;
     snooze_timeout_en := snooze_timeout_en g;
     tb_ticks_per_usec := tb_ticks_per_usec g;
     system_state := system_state g;
     kmsg := kmsg g ++ [msg] |}.

(** Element [i] of a C array held as a list. *)
Definition array_get {A} (l : list A) (i : Z) : option A :=
  if bool_decide (0 <= i) then l !! Z.to_nat i else None.

(** ** The device tree *)

(** A node is its properties, a property the bytes of its value. *)
Abbreviation device_node := (gmap string (list byte)).
Abbreviation device_tree := (gmap string device_node).

Definition of_find_node_by_path (dt : device_tree) (path : string)
  : option device_node := dt !! path.

(** Returns the value; its length in bytes ([lenp]) is the list's length. *)
Definition of_get_property (np : device_node) (prop : string)
  : option (list byte) := np !! prop.

Definition byte_to_Z (b : byte) : Z := Z.of_N (Byte.to_N b).

Definition be32_to_cpu (b0 b1 b2 b3 : byte) : Z :=
  Z.lor (Z.shiftl (byte_to_Z b0) 24)
    (Z.lor (Z.shiftl (byte_to_Z b1) 16)
       (Z.lor (Z.shiftl (byte_to_Z b2) 8) (byte_to_Z b3))).

(** A property value seen through a [const __be32 *]: the complete cells. *)
Fixpoint be32_cells (bs : list byte) : list Z :=
  match bs with
  | b0 :: b1 :: b2 :: b3 :: rest => be32_to_cpu b0 b1 b2 b3 :: be32_cells rest
  | _ => []
  end.

Definition byte_of_Z (z : Z) : byte :=
  default Byte.x00 (Byte.of_N (Z.to_N (z mod 256))).

Definition cpu_to_be32 (v : Z) : list byte :=
  [byte_of_Z (Z.shiftr v 24); byte_of_Z (Z.shiftr v 16);
   byte_of_Z (Z.shiftr v 8); byte_of_Z v].

(** The bytes of a property holding the given 32-bit cells. *)
Definition dt_cells (vs : list Z) : list byte := vs ≫= cpu_to_be32.

(** ** CapabilityProbe: [powernv_add_idle_states] *)

Section probe.
Context `{platform}.

(** The static initialiser of [powernv_states]: three entries written out,
    the other five zeroed. *)
Definition zero_state : cpuidle_state :=
  {| name := EmptyString; desc := EmptyString; flags := 0; exit_latency := 0;
     target_residency := 0; disabled := false; enter := None |}.

Definition powernv_states_init : list cpuidle_state :=
  [ {| name := "snooze"; desc := "snooze";
       flags := CPUIDLE_FLAG_TIME_VALID;
       exit_latency := 0; target_residency := 0;
       disabled := false; enter := Some fn_snooze_loop |};
    {| name := "NAP"; desc := "NAP";
       flags := CPUIDLE_FLAG_TIME_VALID;
       exit_latency := 10; target_residency := 100;
       disabled := false; enter := Some fn_nap_loop |};
    {| name := "fastsleep"; desc := "fastsleep";
       flags := CPUIDLE_FLAG_TIME_VALID;
       exit_latency := 10; target_residency := 100;
       disabled := false; enter := Some fn_fastsleep_loop |} ]
  ++ replicate 5 zero_state.

(** The six assignments of the "Add NAP state" block, on one slot. *)
Definition nap_state (latency_ns : Z) (s : cpuidle_state) : cpuidle_state :=
  {| name := "Nap"; desc := "Nap";
     flags := CPUIDLE_FLAG_TIME_VALID;
     exit_latency := latency_ns / 1000;
     target_residency := latency_ns / 100;
     disabled := disabled s;
     enter := Some fn_nap_loop |}.

(** The six assignments of the "Add FASTSLEEP state" block. *)
Definition fastsleep_state (latency_ns : Z) (s : cpuidle_state)
  : cpuidle_state :=
  {| name := "FastSleep"; desc := "FastSleep";
     flags := Z.lor CPUIDLE_FLAG_TIME_VALID CPUIDLE_FLAG_TIMER_STOP;
     exit_latency := latency_ns / 1000;
     target_residency := latency_ns / 100;
     disabled := disabled s;
     enter := Some fn_fastsleep_loop |}.

(** [powernv_states[nr_idle_states].f = ...; nr_idle_states++]: the slot
    must exist in the array. *)
Definition add_state (fill : cpuidle_state -> cpuidle_state)
    (st : Z * list cpuidle_state) : outcome (Z * list cpuidle_state) :=
  let '(nr_idle_states, tbl) := st in
  match array_get tbl nr_idle_states with
  | Some _ => Ok (nr_idle_states + 1, alter fill (Z.to_nat nr_idle_states) tbl)
  | None => Fault (StoreOutOfBounds "powernv_states" nr_idle_states)
  end.

(** One iteration of the loop over the flags property. *)
Definition dt_state_step (idle_state_flags idle_state_latency : list byte)
    (i : Z) (st : Z * list cpuidle_state)
  : outcome (Z * list cpuidle_state) :=
  match array_get (be32_cells idle_state_flags) i with
  | None => Fault (LoadOutOfBounds "idle_state_flags" i)
  | Some flags =>
    match array_get (be32_cells idle_state_latency) i with
    | None => Fault (LoadOutOfBounds "idle_state_latency" i)
    | Some latency_ns =>
      do st1 <- (if bool_decide (Z.land flags IDLE_USE_INST_NAP <> 0)
                 then add_state (nap_state latency_ns) st
                 else Ok st);
      if bool_decide (Z.land flags IDLE_USE_INST_SLEEP <> 0)
      then add_state (fastsleep_state latency_ns) st1
      else Ok st1
    end
  end.

(** [for (; i < dt_idle_states; i++)], with [n] iterations left. *)
Fixpoint dt_state_loop (idle_state_flags idle_state_latency : list byte)
    (n : nat) (i : Z) (st : Z * list cpuidle_state)
  : outcome (Z * list cpuidle_state) :=
  match n with
  | O => Ok st
  | S n' =>
    do st' <- dt_state_step idle_state_flags idle_state_latency i st;
    dt_state_loop idle_state_flags idle_state_latency n' (i + 1) st'
  end.

Definition powernv_add_idle_states (dt : device_tree) (g : globals)
  : outcome (Z * globals) :=
  let nr_idle_states := 1 in
  match of_find_node_by_path dt "/ibm,opal/power-mgt" with
  | None => Ok (nr_idle_states, pr_warn ("opal: PowerMgmt Node not found" ++ LF) g)
  | Some power_mgt =>
    match of_get_property power_mgt "ibm,cpu-idle-state-flags" with
    | None =>
      Ok (nr_idle_states,
          pr_warn ("DT-PowerMgmt: missing ibm,cpu-idle-state-flags" ++ LF) g)
    | Some idle_state_flags =>
      let len_flags := Z.of_nat (length idle_state_flags) in
      match of_get_property power_mgt "ibm,cpu-idle-state-latencies-ns" with
      | None =>
        Ok (nr_idle_states,
            pr_warn
              ("DT-PowerMgmt: missing ibm,cpu-idle-state-latencies-ns" ++ LF)
              g)
      | Some idle_state_latency =>
        let dt_idle_states := len_flags / 4 in
        do (nr, tbl) <- dt_state_loop idle_state_flags idle_state_latency
                           (Z.to_nat dt_idle_states) 0
                           (nr_idle_states, powernv_states g);
        Ok (nr, set_powernv_states tbl g)
      end
    end
  end.

End probe.

(** ** Selector: [get_snooze_timeout] *)

(** The body of [for (i = index + 1; i < drv->state_count; i++)], with [n]
    iterations left. *)
Fixpoint snooze_timeout_scan (g : globals) (dev : cpuidle_device)
    (drv : cpuidle_driver) (n : nat) (i : Z) : outcome Z :=
  match n with
  | O => Ok (default_snooze_timeout g)
  | S n' =>
    match array_get (states drv) i with
    | None => Fault (LoadOutOfBounds "drv->states" i)
    | Some s =>
      if disabled s then snooze_timeout_scan g dev drv n' (i + 1)
      else
        match array_get (states_usage dev) i with
        | None => Fault (LoadOutOfBounds "dev->states_usage" i)
        | Some su =>
          if bool_decide (disable su <> 0)
          then snooze_timeout_scan g dev drv n' (i + 1)
          else Ok (u64 (target_residency s * tb_ticks_per_usec g))
        end
    end
  end.

Definition get_snooze_timeout (g : globals) (dev : cpuidle_device)
    (drv : cpuidle_driver) (index : Z) : outcome Z :=
  if negb (snooze_timeout_en g) then Ok (default_snooze_timeout g)
  else if bool_decide (index + 1 < 2 ^ 31)
  then snooze_timeout_scan g dev drv
         (Z.to_nat (state_count drv - (index + 1))) (index + 1)
  else Fault IntOverflow.

(** ** Executor: the three entry routines *)

(** What the routines ask of the processor and of the scheduler, in
    program order. *)
Inductive event :=
  | ev_local_irq_enable
  | ev_ppc64_runlatch_off
  | ev_ppc64_runlatch_on
  | ev_HMT_low
  | ev_HMT_very_low
  | ev_HMT_medium
  | ev_smp_mb
  | ev_power7_idle
  | ev_power7_sleep
  | ev_mtspr_LPCR (v : Z).

(** The hardware thread the routine runs on. *)
Record cpu := Cpu {
  lpcr : Z;
  tb : Z;
  snooze_exit_time : Z;
  tif_polling_nrflag : bool;
  trace : list event;
}.

Definition emit (e : event) (c : cpu) : cpu :=
  {| lpcr := lpcr c; tb := tb c; snooze_exit_time := snooze_exit_time c;
     tif_polling_nrflag := tif_polling_nrflag c; trace := trace c ++ [e] |}.

Definition set_lpcr (v : Z) (c : cpu) : cpu :=
  {| lpcr := v; tb := tb c; snooze_exit_time := snooze_exit_time c;
     tif_polling_nrflag := tif_polling_nrflag c; trace := trace c |}.

Definition set_snooze_exit_time (v : Z) (c : cpu) : cpu :=
  {| lpcr := lpcr c; tb := tb c; snooze_exit_time := v;
     tif_polling_nrflag := tif_polling_nrflag c; trace := trace c |}.

Definition set_polling (b : bool) (c : cpu) : cpu :=
  {| lpcr := lpcr c; tb := tb c; snooze_exit_time := snooze_exit_time c;
     tif_polling_nrflag := b; trace := trace c |}.

Definition mfspr_LPCR (c : cpu) : Z := lpcr c.
Definition mtspr_LPCR (v : Z) (c : cpu) : cpu := emit (ev_mtspr_LPCR v) (set_lpcr v c).
Definition get_tb (c : cpu) : Z := tb c.

Section executor.
Context `{platform}.

Definition power7_sleep (c : cpu) : cpu :=
  set_lpcr (power7_sleep_lpcr (lpcr c)) (emit ev_power7_sleep c).

Definition power7_idle (c : cpu) : cpu := emit ev_power7_idle c.

(** [while (!need_resched ()) { HMT_low (); HMT_very_low (); }]: the
    [k]-th call of [need_resched] answers [need_resched k]. *)
Fixpoint snooze_poll (need_resched : nat -> bool) (fuel : nat) (k : nat)
    (c : cpu) : outcome cpu :=
  match fuel with
  | O => OutOfFuel
  | S fuel' =>
    if need_resched k then Ok c
    else snooze_poll need_resched fuel' (S k)
           (emit ev_HMT_very_low (emit ev_HMT_low c))
  end.

Definition snooze_loop (need_resched : nat -> bool) (fuel : nat)
    (g : globals) (dev : cpuidle_device) (drv : cpuidle_driver)
    (index : Z) (c : cpu) : outcome (Z * cpu) :=
  let c := emit ev_local_irq_enable c in
  let c := set_polling true c in
  do timeout <- get_snooze_timeout g dev drv index;
  let c := set_snooze_exit_time (u64 (get_tb c + timeout)) c in
  let c := emit ev_ppc64_runlatch_off c in
  do c <- snooze_poll need_resched fuel 0 c;
  let c := emit ev_HMT_medium c in
  let c := emit ev_ppc64_runlatch_on c in
  let c := set_polling false c in
  let c := emit ev_smp_mb c in
  Ok (index, c).

Definition nap_loop (dev : cpuidle_device) (drv : cpuidle_driver)
    (index : Z) (c : cpu) : Z * cpu :=
  let c := emit ev_ppc64_runlatch_off c in
  let c := power7_idle c in
  let c := emit ev_ppc64_runlatch_on c in
  (index, c).

Definition fastsleep_loop (g : globals) (dev : cpuidle_device)
    (drv : cpuidle_driver) (index : Z) (c : cpu) : Z * cpu :=
  let old_lpcr := mfspr_LPCR c in
  if bool_decide (system_state g < SYSTEM_RUNNING) then (index, c)
  else
    let new_lpcr := old_lpcr in
    let new_lpcr :=
      Z.land new_lpcr (u64 (Z.lnot (Z.lor LPCR_MER LPCR_PECE))) in
    let new_lpcr := u64 (Z.lor new_lpcr LPCR_PECE0) in
    let c := mtspr_LPCR new_lpcr c in
    let c := power7_sleep c in
    let c := mtspr_LPCR old_lpcr c in
    (index, c).

End executor.

(** ** HotplugCoordinator: [powernv_cpuidle_add_cpu_notifier] *)

Inductive core_event :=
  | ev_cpuidle_pause_and_lock
  | ev_cpuidle_resume_and_unlock
  | ev_cpuidle_enable_device (cpu : Z)
  | ev_cpuidle_disable_device (cpu : Z).

(** The cpuidle core as the notifier sees it: the per-cpu device pointers
    (no entry for a [NULL] pointer), the registered driver, and the calls
    made into the core. *)
Record cpuidle_core := CpuidleCore {
  cpuidle_devices : gmap Z cpuidle_device;
  cpuidle_curr_driver : option cpuidle_driver;
  core_trace : list core_event;
}.

Definition core_call (e : core_event) (k : cpuidle_core) : cpuidle_core :=
  {| cpuidle_devices := cpuidle_devices k;
     cpuidle_curr_driver := cpuidle_curr_driver k;
     core_trace := core_trace k ++ [e] |}.

Definition set_enabled (b : bool) (dev : cpuidle_device) : cpuidle_device :=
  {| states_usage := states_usage dev; enabled := b |}.

Definition cpuidle_get_driver (k : cpuidle_core) : option cpuidle_driver :=
  cpuidle_curr_driver k.

Definition cpuidle_pause_and_lock : cpuidle_core -> cpuidle_core :=
  core_call ev_cpuidle_pause_and_lock.

Definition cpuidle_resume_and_unlock : cpuidle_core -> cpuidle_core :=
  core_call ev_cpuidle_resume_and_unlock.

(** The core marks the device of that cpu as taking part in idle dispatch. *)
Definition cpuidle_enable_device (hotcpu : Z) (k : cpuidle_core)
  : cpuidle_core :=
  core_call (ev_cpuidle_enable_device hotcpu)
    {| cpuidle_devices := alter (set_enabled true) hotcpu (cpuidle_devices k);
       cpuidle_curr_driver := cpuidle_curr_driver k;
       core_trace := core_trace k |}.

Definition cpuidle_disable_device (hotcpu : Z) (k : cpuidle_core)
  : cpuidle_core :=
  core_call (ev_cpuidle_disable_device hotcpu)
    {| cpuidle_devices := alter (set_enabled false) hotcpu (cpuidle_devices k);
       cpuidle_curr_driver := cpuidle_curr_driver k;
       core_trace := core_trace k |}.

Section hotplug.
Context `{platform}.

Definition powernv_cpuidle_add_cpu_notifier (action : Z) (hcpu : Z)
    (k : cpuidle_core) : Z * cpuidle_core :=
  let hotcpu := to_int hcpu in
  match cpuidle_devices k !! hotcpu, cpuidle_get_driver k with
  | Some dev, Some _ =>
    if bool_decide (action = CPU_ONLINE)
       || bool_decide (action = CPU_ONLINE_FROZEN)
    then
      (NOTIFY_OK,
       cpuidle_resume_and_unlock
         (cpuidle_enable_device hotcpu (cpuidle_pause_and_lock k)))
    else if bool_decide (action = CPU_DEAD)
            || bool_decide (action = CPU_DEAD_FROZEN)
    then
      (NOTIFY_OK,
       cpuidle_resume_and_unlock
         (cpuidle_disable_device hotcpu (cpuidle_pause_and_lock k)))
    else (NOTIFY_DONE, k)
  | _, _ => (NOTIFY_OK, k)
  end.

End hotplug.

(** ** Capabilities announced by the device tree *)

Section probe_capabilities.
Context `{platform}.

(** The capabilities a flag word announces, in the order the loop tests
    its bits. *)
Definition recognized (flags : Z) : list enter_fn :=
  (if bool_decide (Z.land flags IDLE_USE_INST_NAP <> 0)
   then [fn_nap_loop] else [])
  ++ (if bool_decide (Z.land flags IDLE_USE_INST_SLEEP <> 0)
      then [fn_fastsleep_loop] else []).

(** What the loop writes into a slot for a capability and its latency. *)
Definition fill_of (w : enter_fn * Z) : cpuidle_state -> cpuidle_state :=
  match w.1 with
  | fn_fastsleep_loop => fastsleep_state w.2
  | _ => nap_state w.2
  end.

(** Every capability announced by the flag words, with the latency of its
    flag word, in array order. *)
Fixpoint dt_fills (fs ls : list Z) : list (enter_fn * Z) :=
  match fs, ls with
  | f :: fs', l :: ls' => ((λ k, (k, l)) <$> recognized f) ++ dt_fills fs' ls'
  | _, _ => []
  end.

(** Writing the capabilities into consecutive slots from slot [k] on. *)
Fixpoint apply_fills (k : nat) (W : list (enter_fn * Z))
    (tbl : list cpuidle_state) : list cpuidle_state :=
  match W with
  | [] => tbl
  | w :: W' => apply_fills (S k) W' (alter (fill_of w) k tbl)
  end.

End probe_capabilities.

(** ** A concrete platform

    The values of the 3.x kernel headers on 64-bit PowerPC, a sleep
    instruction that comes back with the LPCR cleared, the driver's
    variables as they are at boot on a machine whose timebase runs at
    512 MHz, and a device tree holding the two properties. *)

Definition linux_ppc64 : platform :=
  {| CPUIDLE_FLAG_TIME_VALID := 0x01;
     CPUIDLE_FLAG_TIMER_STOP := 0x04;
     CPU_ONLINE := 0x0002;
     CPU_ONLINE_FROZEN := 0x0012;
     CPU_DEAD := 0x0007;
     CPU_DEAD_FROZEN := 0x0017;
     NOTIFY_DONE := 0x0000;
     NOTIFY_OK := 0x0001;
     LPCR_MER := 0x800;
     LPCR_PECE := 0x1f000;
     LPCR_PECE0 := 0x4000;
     SYSTEM_RUNNING := 1;
     power7_sleep_lpcr := fun _ => 0 |}.

Definition boot_globals `{platform} : globals :=
  {| powernv_states := powernv_states_init;
     default_snooze_timeout := 0;
     snooze_timeout_en := false;
     tb_ticks_per_usec := 512;
     system_state := 0;
     kmsg := [] |}.

Definition power_mgt_node (flag_words latencies_ns : list Z) : device_node :=
  <["ibm,cpu-idle-state-flags" := dt_cells flag_words]>
    (<["ibm,cpu-idle-state-latencies-ns" := dt_cells latencies_ns]> ∅).

Definition power_mgt_tree (flag_words latencies_ns : list Z) : device_tree :=
  <["/ibm,opal/power-mgt" := power_mgt_node flag_words latencies_ns]> ∅.

(** ** Degenerate capability inputs *)

(** The capability source is absent, or one of the two arrays is missing. *)
Definition capability_missing (dt : device_tree) : Prop :=
  match of_find_node_by_path dt "/ibm,opal/power-mgt" with
  | None => True
  | Some power_mgt =>
    match of_get_property power_mgt "ibm,cpu-idle-state-flags",
          of_get_property power_mgt "ibm,cpu-idle-state-latencies-ns" with
    | Some _, Some _ => False
    | _, _ => True
    end
  end.

(** Both arrays are there, with different lengths. *)
Definition capability_mismatched (dt : device_tree) : Prop :=
  match of_find_node_by_path dt "/ibm,opal/power-mgt" with
  | None => False
  | Some power_mgt =>
    match of_get_property power_mgt "ibm,cpu-idle-state-flags",
          of_get_property power_mgt "ibm,cpu-idle-state-latencies-ns" with
    | Some idle_state_flags, Some idle_state_latency =>
      length idle_state_flags ≠ length idle_state_latency
    | _, _ => False
    end
  end.

(** ** The snooze timeout in the words of the specification *)

(** An entry is enabled when neither the driver ([disabled]) nor the user
    ([disable]) has switched it off. *)
Definition state_enabled (e : cpuidle_state * cpuidle_state_usage) : bool :=
  negb (disabled e.1) && bool_decide (disable e.2 = 0).

Fixpoint first_enabled (es : list (cpuidle_state * cpuidle_state_usage))
  : option cpuidle_state :=
  match es with
  | [] => None
  | e :: es' => if state_enabled e then Some e.1 else first_enabled es'
  end.

(** The first enabled state at a position strictly greater than [index],
    among the [state_count] entries of the table. *)
Definition next_enabled_state (dev : cpuidle_device) (drv : cpuidle_driver)
    (index : Z) : option cpuidle_state :=
  first_enabled
    (drop (Z.to_nat (index + 1))
       (take (Z.to_nat (state_count drv))
          (zip (states drv) (states_usage dev)))).

(** "Returns the [target_residency_us] of the first one whose enable flag
    is set; if none is enabled, returns a configured default timeout." *)
Definition spec_get_timeout (g : globals) (dev : cpuidle_device)
    (drv : cpuidle_driver) (index : Z) : Z :=
  match next_enabled_state dev drv index with
  | Some s => target_residency s
  | None => default_snooze_timeout g
  end.

(** A driver with the snooze and nap states, a device with both enabled,
    and the driver's variables once the probe has found more than one
    state; [TICK_USEC] is 10000 at HZ = 100. *)
Definition two_state_driver `{platform} : cpuidle_driver :=
  {| states := take 2 powernv_states_init; state_count := 2 |}.

Definition idle_device : cpuidle_device :=
  {| states_usage := [ {| disable := 0 |}; {| disable := 0 |} ];
     enabled := true |}.

Definition probed_globals `{platform} : globals :=
  {| powernv_states := powernv_states_init;
     default_snooze_timeout := 10000 * 512;
     snooze_timeout_en := true;
     tb_ticks_per_usec := 512;
     system_state := SYSTEM_RUNNING;
     kmsg := [] |}.

Definition idle_cpu : cpu :=
  {| lpcr := 0x0000000004c3d000; tb := 0; snooze_exit_time := 0;
     tif_polling_nrflag := false; trace := [] |}.

Definition one_core `{platform} : cpuidle_core :=
  {| cpuidle_devices := {[ 0 := idle_device ]};
     cpuidle_curr_driver := Some two_state_driver;
     core_trace := [] |}.

(** ** The LPCR during fastsleep *)

Section fastsleep_register.
Context `{platform}.

(** The value [fastsleep_loop] writes to the LPCR before sleeping. *)
Definition fastsleep_lpcr (old_lpcr : Z) : Z :=
  u64 (Z.lor (Z.land old_lpcr (u64 (Z.lnot (Z.lor LPCR_MER LPCR_PECE))))
         LPCR_PECE0).

End fastsleep_register.

(** ** Start-up: [powernv_idle_probe], [powernv_cpuidle_driver_init] and
    [powernv_processor_idle_init] *)

(** What [drv->cpumask] can point to. *)
Inductive cpumask_ptr := ptr_cpu_possible_mask | ptr_cpu_present_mask.

(** Further header constants ([linux/errno.h], [asm/processor.h],
    [linux/jiffies.h], [linux/cpuidle.h]) and the cpuidle core's
    [cpuidle_register], which is given the driver and its cpumask, answers
    0 or an error and may change the core's state. *)
Class boot_platform := BootPlatform {
  ENODEV : Z;
  IDLE_NO_OVERRIDE : Z;
  TICK_USEC : Z;
  CPUIDLE_STATE_MAX : nat;
  cpuidle_register_core :
    cpuidle_driver -> option cpumask_ptr -> cpuidle_core -> Z * cpuidle_core;
}.

(** What [cpuidle_state_table] can point to. *)
Inductive state_table_ptr := ptr_powernv_states.

Inductive notifier_block := setup_hotplug_notifier.

(** The module's variables beyond [globals]: [max_idle_state],
    [cpuidle_state_table] (a pointer: [None] is [NULL]) and the
    [powernv_idle_driver] object with its [cpumask] pointer. *)
Record driver_module := DriverModule {
  module_globals : globals;
  max_idle_state : Z;
  cpuidle_state_table : option state_table_ptr;
  powernv_idle_driver : cpuidle_driver;
  powernv_idle_driver_cpumask : option cpumask_ptr;
}.

(** What the boot hands to the module: the [cpuidle_disable] setting, whether
    the firmware has [FW_FEATURE_OPALv3], and the device tree. *)
Record boot_env := BootEnv {
  cpuidle_disable : Z;
  firmware_has_feature_OPALv3 : bool;
  boot_device_tree : device_tree;
}.

(** The kernel around the module: the cpuidle core and the registered cpu
    notifiers. *)
Record kernel := Kernel {
  kernel_cpuidle : cpuidle_core;
  cpu_notifiers : list notifier_block;
}.

Definition set_default_snooze_timeout (v : Z) (g : globals) : globals :=
  {| powernv_states := powernv_states g;
     default_snooze_timeout := v;
     snooze_timeout_en := snooze_timeout_en g;
     tb_ticks_per_usec := tb_ticks_per_usec g;
     system_state := system_state g;
     kmsg := kmsg g |}.

Definition set_snooze_timeout_en (b : bool) (g : globals) : globals :=
  {| powernv_states := powernv_states g;
     default_snooze_timeout := default_snooze_timeout g;
     snooze_timeout_en := b;
     tb_ticks_per_usec := tb_ticks_per_usec g;
     system_state := system_state g;
     kmsg := kmsg g |}.

(** [KERN_DEBUG] is the header byte SOH followed by the level, "7". *)
Definition KERN_DEBUG : string := String (Ascii.ascii_of_nat 1) "7".

Definition printk (msg : string) (g : globals) : globals :=
  {| powernv_states := powernv_states g;
     default_snooze_timeout := default_snooze_timeout g;
     snooze_timeout_en := snooze_timeout_en g;
     tb_ticks_per_usec := tb_ticks_per_usec g;
     system_state := system_state g;
     kmsg := kmsg g ++ [msg] |}.

(** The array [cpuidle_state_table] points to; none behind [NULL]. *)
Definition state_table (m : driver_module) : list cpuidle_state :=
  match cpuidle_state_table m with
  | Some ptr_powernv_states => powernv_states (module_globals m)
  | None => []
  end.

(** The body of [for (idle_state = 0; idle_state < max_idle_state;
    ++idle_state)], with [n] iterations left: a state whose [enter] is
    [NULL] is skipped, any other is copied to [drv->states[drv->state_count]]. *)
Fixpoint driver_init_loop (table : list cpuidle_state) (n : nat)
    (idle_state : Z) (drv : cpuidle_driver) : outcome cpuidle_driver :=
  match n with
  | O => Ok drv
  | S n' =>
    match array_get table idle_state with
    | None => Fault (LoadOutOfBounds "cpuidle_state_table" idle_state)
    | Some s =>
      match enter s with
      | None => driver_init_loop table n' (idle_state + 1) drv
      | Some _ =>
        match array_get (states drv) (state_count drv) with
        | None => Fault (StoreOutOfBounds "drv->states" (state_count drv))
        | Some _ =>
          driver_init_loop table n' (idle_state + 1)
            {| states := <[Z.to_nat (state_count drv) := s]> (states drv);
               state_count := state_count drv + 1 |}
        end
      end
    end
  end.

Definition powernv_cpuidle_driver_init (m : driver_module)
  : outcome (Z * driver_module) :=
  let drv := powernv_idle_driver m in
  let drv := {| states := states drv; state_count := 0 |} in
  do drv <- driver_init_loop (state_table m) (Z.to_nat (max_idle_state m))
              0 drv;
  Ok (0, {| module_globals := module_globals m;
            max_idle_state := max_idle_state m;
            cpuidle_state_table := cpuidle_state_table m;
            powernv_idle_driver := drv;
            powernv_idle_driver_cpumask := Some ptr_cpu_present_mask |}).

Section startup.
Context `{platform} `{boot_platform}.

(** [powernv_idle_driver] as the static initialiser leaves it. *)
Definition powernv_idle_driver_init : cpuidle_driver :=
  {| states := replicate CPUIDLE_STATE_MAX zero_state; state_count := 0 |}.

Definition module_at_load (g : globals) : driver_module :=
  {| module_globals := g;
     max_idle_state := 0;
     cpuidle_state_table := None;
     powernv_idle_driver := powernv_idle_driver_init;
     powernv_idle_driver_cpumask := None |}.

Definition powernv_idle_probe (env : boot_env) (m : driver_module)
  : outcome (Z * driver_module) :=
  if bool_decide (cpuidle_disable env <> IDLE_NO_OVERRIDE)
  then Ok (- ENODEV, m)
  else if firmware_has_feature_OPALv3 env then
    do (n, g) <- powernv_add_idle_states (boot_device_tree env)
                   (module_globals m);
    let g := set_default_snooze_timeout
               (u64 (TICK_USEC * tb_ticks_per_usec g)) g in
    let g := if bool_decide (n > 1) then set_snooze_timeout_en true g
             else g in
    Ok (0, {| module_globals := g;
              max_idle_state := n;
              cpuidle_state_table := Some ptr_powernv_states;
              powernv_idle_driver := powernv_idle_driver m;
              powernv_idle_driver_cpumask := powernv_idle_driver_cpumask m |})
  else Ok (- ENODEV, m).

Definition log_module (msg : string) (m : driver_module) : driver_module :=
  {| module_globals := printk msg (module_globals m);
     max_idle_state := max_idle_state m;
     cpuidle_state_table := cpuidle_state_table m;
     powernv_idle_driver := powernv_idle_driver m;
     powernv_idle_driver_cpumask := powernv_idle_driver_cpumask m |}.

(** [cpuidle_register (&powernv_idle_driver, NULL)]. *)
Definition cpuidle_register (m : driver_module) (k : kernel) : Z * kernel :=
  let '(retval, core) :=
    cpuidle_register_core (powernv_idle_driver m)
      (powernv_idle_driver_cpumask m) (kernel_cpuidle k) in
  (retval, {| kernel_cpuidle := core; cpu_notifiers := cpu_notifiers k |}).

Definition register_cpu_notifier (nb : notifier_block) (k : kernel) : kernel :=
  {| kernel_cpuidle := kernel_cpuidle k;
     cpu_notifiers := cpu_notifiers k ++ [nb] |}.

Definition powernv_processor_idle_init (env : boot_env) (m : driver_module)
    (k : kernel) : outcome (Z * driver_module * kernel) :=
  do (retval, m) <- powernv_idle_probe env m;
  if bool_decide (retval <> 0) then Ok (retval, m, k)
  else
    do (_, m) <- powernv_cpuidle_driver_init m;
    let '(retval, k) := cpuidle_register m k in
    if bool_decide (retval <> 0)
    then Ok (retval,
             log_module
               (KERN_DEBUG ++ "Registration of powernv driver failed." ++ LF)
               m,
             k)
    else
      let k := register_cpu_notifier setup_hotplug_notifier k in
      Ok (0,
          log_module (KERN_DEBUG ++ "powernv_idle_driver registered" ++ LF) m,
          k).

End startup.

(** A concrete boot: errno 19, no idle override, a 100 Hz tick, ten driver
    slots, and a cpuidle core that accepts the driver. *)
Definition linux_boot : boot_platform :=
  {| ENODEV := 19;
     IDLE_NO_OVERRIDE := 0;
     TICK_USEC := 10000;
     CPUIDLE_STATE_MAX := 10;
     cpuidle_register_core := fun drv _ core =>
       (0, {| cpuidle_devices := cpuidle_devices core;
              cpuidle_curr_driver := Some drv;
              core_trace := core_trace core |}) |}.

Definition empty_kernel : kernel :=
  {| kernel_cpuidle := {| cpuidle_devices := ∅;
                          cpuidle_curr_driver := None;
                          core_trace := [] |};
     cpu_notifiers := [] |}.

(** ** The events of the polling loop *)


(** ** A concrete start-up

    OPALv3 firmware announcing nap and fastsleep, idle not overridden; the
    module after the probe, and the module and kernel after the whole
    initialisation. *)

Definition opal_boot_env : boot_env :=
  {| cpuidle_disable := 0;
     firmware_has_feature_OPALv3 := true;
     boot_device_tree :=
       power_mgt_tree [0x00010000; 0x00020000] [10000; 300000] |}.

Definition loaded_module : driver_module :=
  @module_at_load linux_boot (@boot_globals linux_ppc64).


Definition initialised_module : driver_module :=
  match @powernv_processor_idle_init linux_ppc64 linux_boot opal_boot_env
          loaded_module empty_kernel with
  | Ok (_, m, _) => m
  | _ => loaded_module
  end.

Definition initialised_kernel : kernel :=
  match @powernv_processor_idle_init linux_ppc64 linux_boot opal_boot_env
          loaded_module empty_kernel with
  | Ok (_, _, k) => k
  | _ => empty_kernel
  end.

(** * Properties *)

(** Closes a hypothesis of a closed instance by evaluating it. *)
Ltac by_evaluation :=
  first [ reflexivity
        | lia
        | vm_compute; first [ reflexivity | lia | discriminate | exact I ] ].

(** ** Facts about the probe loop *)

Section probe_facts.
Context `{platform}.

Lemma array_get_nat {A} (l : list A) (i : nat) :
  array_get l (Z.of_nat i) = l !! i.
Proof.
  unfold array_get. rewrite bool_decide_true by lia. by rewrite Nat2Z.id.
Qed.

Lemma apply_fills_app k W1 W2 tbl :
  apply_fills k (W1 ++ W2) tbl
  = apply_fills (k + length W1) W2 (apply_fills k W1 tbl).
Proof.
  revert k tbl. induction W1 as [|w W1 IH]; intros k tbl; simpl.
  - by rewrite Nat.add_0_r.
  - rewrite IH. f_equal. lia.
Qed.

Lemma length_apply_fills k W tbl : length (apply_fills k W tbl) = length tbl.
Proof.
  revert k tbl. induction W as [|w W IH]; intros k tbl; simpl; [done|].
  by rewrite IH, length_alter.
Qed.

Lemma add_state_ok w (nr : nat) tbl :
  (nr < length tbl)%nat →
  add_state (fill_of w) (Z.of_nat nr, tbl)
  = Ok (Z.of_nat (S nr), apply_fills nr [w] tbl).
Proof.
  intros Hlt. unfold add_state. rewrite array_get_nat.
  destruct (lookup_lt_is_Some_2 tbl nr Hlt) as [s ->].
  rewrite Nat2Z.id. simpl. do 2 f_equal. lia.
Qed.

Local Opaque add_state.

Lemma dt_state_step_ok F L (i nr : nat) tbl f l :
  be32_cells F !! i = Some f →
  be32_cells L !! i = Some l →
  (nr + length (recognized f) ≤ length tbl)%nat →
  dt_state_step F L (Z.of_nat i) (Z.of_nat nr, tbl)
  = Ok (Z.of_nat (nr + length (recognized f)),
        apply_fills nr ((λ k, (k, l)) <$> recognized f) tbl).
Proof.
  intros Hf Hl. unfold dt_state_step, recognized.
  rewrite !array_get_nat, Hf, Hl.
  change (nap_state l) with (fill_of (fn_nap_loop, l)).
  change (fastsleep_state l) with (fill_of (fn_fastsleep_loop, l)).
  do 2 case_bool_decide; simpl; intros Hfit.
  - rewrite (add_state_ok (fn_nap_loop, l)) by lia. simpl.
    rewrite (add_state_ok (fn_fastsleep_loop, l))
      by (rewrite length_alter; lia).
    simpl. do 2 f_equal. lia.
  - rewrite (add_state_ok (fn_nap_loop, l)) by lia. simpl.
    do 2 f_equal. lia.
  - rewrite (add_state_ok (fn_fastsleep_loop, l)) by lia. simpl.
    do 2 f_equal. lia.
  - do 2 f_equal. lia.
Qed.

Local Transparent add_state.
Local Opaque dt_state_step.

Lemma dt_state_loop_ok F L n (i nr : nat) tbl :
  (i + n ≤ length (be32_cells F))%nat →
  (i + n ≤ length (be32_cells L))%nat →
  let W := dt_fills (take n (drop i (be32_cells F)))
                    (take n (drop i (be32_cells L))) in
  (nr + length W ≤ length tbl)%nat →
  dt_state_loop F L n (Z.of_nat i) (Z.of_nat nr, tbl)
  = Ok (Z.of_nat (nr + length W), apply_fills nr W tbl).
Proof.
  revert i nr tbl. induction n as [|n IH]; intros i nr tbl HF HL; simpl.
  - intros _. do 2 f_equal. lia.
  - destruct (lookup_lt_is_Some_2 (be32_cells F) i) as [f Hf]; [lia|].
    destruct (lookup_lt_is_Some_2 (be32_cells L) i) as [l Hl]; [lia|].
    rewrite (drop_S _ _ _ Hf), (drop_S _ _ _ Hl). simpl.
    rewrite length_app, length_fmap. intros Hfit.
    rewrite (dt_state_step_ok F L i nr tbl f l Hf Hl) by lia. simpl.
    replace (Z.of_nat i + 1) with (Z.of_nat (S i)) by lia.
    rewrite IH by (rewrite ?length_apply_fills; lia).
    rewrite apply_fills_app, length_fmap. do 2 f_equal. lia.
Qed.

Local Transparent dt_state_step.

Lemma apply_fills_split W pre mid post :
  length mid = length W →
  apply_fills (length pre) W (pre ++ mid ++ post)
  = pre ++ zip_with fill_of W mid ++ post.
Proof.
  revert pre mid. induction W as [|w W IH]; intros pre mid Hlen.
  - by destruct mid.
  - destruct mid as [|s mid]; [done|]. simpl in *.
    replace (length pre) with (length pre + 0)%nat at 2 by lia.
    rewrite alter_app_r. simpl.
    specialize (IH (pre ++ [fill_of w s]) mid).
    rewrite length_app, Nat.add_1_r, <- !app_assoc in IH.
    apply IH. lia.
Qed.

Lemma apply_fills_shape k W tbl :
  (k + length W ≤ length tbl)%nat →
  apply_fills k W tbl
  = take k tbl
    ++ zip_with fill_of W (take (length W) (drop k tbl))
    ++ drop (k + length W) tbl.
Proof.
  intros Hfit.
  rewrite <- (take_drop k tbl) at 1.
  rewrite <- (take_drop (length W) (drop k tbl)) at 1.
  rewrite drop_drop.
  replace k with (length (take k tbl)) at 1 by (rewrite length_take; lia).
  apply apply_fills_split.
  rewrite length_take, length_drop. lia.
Qed.

Lemma length_be32_cells bs :
  length (be32_cells bs) = Z.to_nat (Z.of_nat (length bs) / 4).
Proof.
  assert (Hgen : ∀ n bs, (length bs < n)%nat →
    Z.of_nat (length (be32_cells bs)) = Z.of_nat (length bs) / 4).
  { clear bs. induction n as [|n IH]; intros bs Hn; [lia|].
    destruct bs as [|b0 [|b1 [|b2 [|b3 rest]]]]; try done.
    simpl length.
    rewrite Nat2Z.inj_succ, (IH rest) by (simpl in Hn; lia).
    replace (Z.of_nat (S (S (S (S (length rest))))))
      with (Z.of_nat (length rest) + 1 * 4) by lia.
    rewrite Z.div_add by lia. lia. }
  rewrite <- (Hgen (S (length bs)) bs) by lia. lia.
Qed.

Lemma dt_fills_take fs ls :
  dt_fills fs (take (length fs) ls) = dt_fills fs ls.
Proof.
  revert ls. induction fs as [|f fs IH]; intros [|l ls]; simpl; try done.
  by rewrite IH.
Qed.

(** The probe on a device tree that has the node and both properties,
    with a latency for every flag word and room in the table for every
    capability announced. *)
Lemma powernv_add_idle_states_ok dt g node F L :
  dt !! "/ibm,opal/power-mgt"%string = Some node →
  node !! "ibm,cpu-idle-state-flags"%string = Some F →
  node !! "ibm,cpu-idle-state-latencies-ns"%string = Some L →
  (length (be32_cells F) ≤ length (be32_cells L))%nat →
  let W := dt_fills (be32_cells F) (be32_cells L) in
  (1 + length W ≤ length (powernv_states g))%nat →
  powernv_add_idle_states dt g
  = Ok (Z.of_nat (1 + length W),
        set_powernv_states (apply_fills 1 W (powernv_states g)) g).
Proof.
  intros Hnode HF HL Hlen W Hfit.
  unfold powernv_add_idle_states, of_find_node_by_path, of_get_property.
  rewrite Hnode, HF, HL.
  rewrite <- length_be32_cells.
  pose proof (dt_state_loop_ok F L (length (be32_cells F)) 0 1
                (powernv_states g)) as Hloop.
  rewrite !drop_0, firstn_all, dt_fills_take in Hloop.
  change (Z.of_nat 0) with 0 in Hloop. change (Z.of_nat 1) with 1 in Hloop.
  unfold W in *. cbv zeta in Hloop.
  rewrite Hloop by (simpl; lia). done.
Qed.
End probe_facts.

(** ** Facts about the table the probe leaves *)

Section probe_table.
Context `{platform}.

Lemma length_dt_fills fs ls :
  (length fs ≤ length ls)%nat →
  length (dt_fills fs ls) = length (fs ≫= recognized).
Proof.
  revert ls. induction fs as [|f fs IH]; intros [|l ls] Hlen;
    simpl in *; try done; try lia.
  rewrite !length_app, length_fmap, IH by lia. done.
Qed.


Lemma lookup_apply_fills k W tbl p w :
  (k + length W ≤ length tbl)%nat →
  W !! p = Some w →
  ∃ s0, tbl !! (k + p)%nat = Some s0
        ∧ apply_fills k W tbl !! (k + p)%nat = Some (fill_of w s0).
Proof.
  intros Hfit Hw. pose proof (lookup_lt_Some _ _ _ Hw) as Hp.
  destruct (lookup_lt_is_Some_2 tbl (k + p)) as [s0 Hs0]; [lia|].
  exists s0. split; [done|].
  rewrite apply_fills_shape by done.
  rewrite lookup_app_r by (rewrite length_take; lia).
  rewrite length_take, Nat.min_l by lia.
  replace (k + p - k)%nat with p by lia.
  rewrite lookup_app_l
    by (rewrite length_zip_with, length_take, length_drop; lia).
  rewrite lookup_zip_with, Hw. simpl.
  rewrite lookup_take_lt, lookup_drop, Hs0 by done. done.
Qed.

Lemma take_apply_fills k W tbl :
  (k + length W ≤ length tbl)%nat →
  take (k + length W) (apply_fills k W tbl)
  = take k tbl ++ zip_with fill_of W (take (length W) (drop k tbl)).
Proof.
  intros Hfit. rewrite apply_fills_shape, !app_assoc by done.
  apply take_app_length'.
  rewrite length_app, length_zip_with, !length_take, length_drop. lia.
Qed.

Lemma exit_latency_zip_fills W mid :
  length mid = length W →
  exit_latency <$> zip_with fill_of W mid = (λ w, w.2 / 1000) <$> W.
Proof.
  revert mid. induction W as [|[kind l] W IH]; intros [|s mid] Hlen;
    simplify_eq/=; [done|].
  rewrite IH by done. by destruct kind.
Qed.

Lemma dt_fills_lower_bound b fs ls :
  Forall (Z.le b) ls →
  Forall (λ w, b / 1000 ≤ w.2 / 1000) (dt_fills fs ls).
Proof.
  revert ls. induction fs as [|f fs IH]; intros [|l ls] Hall; simpl;
    try by constructor.
  apply Forall_cons in Hall as [Hl Hall].
  apply Forall_app. split; [|by apply IH].
  apply Forall_fmap, Forall_forall. intros kind _. simpl.
  apply Z.div_le_mono; lia.
Qed.

Lemma dt_fills_sorted fs ls :
  StronglySorted Z.le ls →
  StronglySorted Z.le ((λ w, w.2 / 1000) <$> dt_fills fs ls).
Proof.
  revert ls. induction fs as [|f fs IH]; intros [|l ls] Hs; simpl;
    try by constructor.
  apply StronglySorted_cons in Hs as [Hall Hs].
  rewrite fmap_app. apply StronglySorted_app. split_and!.
  - intros x1 x2 Hx1 Hx2.
    apply list_elem_of_fmap in Hx1 as [w1 [-> Hw1]].
    apply list_elem_of_fmap in Hw1 as [kind [-> _]]. simpl.
    apply list_elem_of_fmap in Hx2 as [w2 [-> Hw2]].
    pose proof (dt_fills_lower_bound l fs ls Hall) as Hb.
    rewrite Forall_forall in Hb. by apply Hb.
  - rewrite <- list_fmap_compose. simpl.
    generalize (recognized f). intros R. induction R as [|r R IHR]; simpl.
    + constructor.
    + constructor; [done|]. apply Forall_fmap, Forall_forall.
      intros; simpl; lia.
  - by apply IH.
Qed.

Lemma byte_to_Z_nonneg b : 0 ≤ byte_to_Z b.
Proof. unfold byte_to_Z. lia. Qed.

Lemma be32_to_cpu_nonneg b0 b1 b2 b3 : 0 ≤ be32_to_cpu b0 b1 b2 b3.
Proof.
  unfold be32_to_cpu.
  repeat (apply Z.lor_nonneg; split);
    try apply Z.shiftl_nonneg; apply byte_to_Z_nonneg.
Qed.

Lemma be32_cells_nonneg bs : Forall (Z.le 0) (be32_cells bs).
Proof.
  assert (Hgen : ∀ n bs, (length bs < n)%nat → Forall (Z.le 0) (be32_cells bs)).
  { clear bs. induction n as [|n IH]; intros bs Hn; [lia|].
    destruct bs as [|b0 [|b1 [|b2 [|b3 rest]]]]; try by constructor.
    simpl. constructor; [apply be32_to_cpu_nonneg|].
    apply IH. simpl in Hn. lia. }
  apply (Hgen (S (length bs))). lia.
Qed.

End probe_table.

(** ** The probe on a well-formed device tree *)

Section probe_outcome.
Context `{platform}.

Lemma probe_run dt g node F L :
  of_find_node_by_path dt "/ibm,opal/power-mgt" = Some node →
  of_get_property node "ibm,cpu-idle-state-flags" = Some F →
  of_get_property node "ibm,cpu-idle-state-latencies-ns" = Some L →
  (length (be32_cells F) ≤ length (be32_cells L))%nat →
  Z.of_nat (length (powernv_states g)) = MAX_POWERNV_IDLE_STATES →
  1 + Z.of_nat (length (be32_cells F ≫= recognized))
    ≤ MAX_POWERNV_IDLE_STATES →
  powernv_add_idle_states dt g
  = Ok (1 + Z.of_nat (length (be32_cells F ≫= recognized)),
        set_powernv_states
          (apply_fills 1 (dt_fills (be32_cells F) (be32_cells L))
             (powernv_states g)) g).
Proof.
  intros Hnode HF HL Hlen Hcap Hfit.
  pose proof (length_dt_fills _ _ Hlen) as HW.
  rewrite (powernv_add_idle_states_ok dt g node F L Hnode HF HL Hlen)
    by (rewrite HW; lia).
  rewrite HW, Nat2Z.inj_add. done.
Qed.


End probe_outcome.

(** ** Capacity and degenerate inputs *)

Section probe_degenerate.
Context `{platform}.

(** C1 (evaluation of the code at the failing input).  Four flag words that
    each announce both nap and sleep ask for nine states: the probe reports
    nothing and its ninth store goes to [powernv_states[8]], one slot past an
    array of [MAX_POWERNV_IDLE_STATES] = 8 entries. *)
Theorem C1_probe_stores_past_capacity :
  powernv_add_idle_states
    (power_mgt_tree [0x00030000; 0x00030000; 0x00030000; 0x00030000]
                    [10000; 10000; 10000; 10000])
    boot_globals
  = Fault (StoreOutOfBounds "powernv_states" MAX_POWERNV_IDLE_STATES).
Proof. vm_compute. reflexivity. Qed.

(** C2 (amended).  When the power-management node is absent, or the flags
    property is missing, or the latencies property is missing, the probe
    returns a state count of 1 without failing; the table is left as it
    was and one warning is logged. *)
Theorem C2_missing_capability_gives_polling_only dt g :
  capability_missing dt →
  ∃ msg, powernv_add_idle_states dt g = Ok (1, pr_warn msg g)
         ∧ powernv_states (pr_warn msg g) = powernv_states g
         ∧ kmsg (pr_warn msg g) = kmsg g ++ [msg].
Proof.
  unfold capability_missing, powernv_add_idle_states.
  destruct (of_find_node_by_path _ _) as [power_mgt|]; [|by eauto].
  destruct (of_get_property power_mgt "ibm,cpu-idle-state-flags");
    [|by eauto].
  destruct (of_get_property power_mgt "ibm,cpu-idle-state-latencies-ns");
    [done|by eauto].
Qed.

End probe_degenerate.

(** C2, witness: an empty device tree. *)
Lemma C2_missing_capability_witness :
  ∃ msg, @powernv_add_idle_states linux_ppc64 ∅ (@boot_globals linux_ppc64)
         = Ok (1, pr_warn msg (@boot_globals linux_ppc64))
         ∧ powernv_states (pr_warn msg (@boot_globals linux_ppc64))
           = powernv_states (@boot_globals linux_ppc64)
         ∧ kmsg (pr_warn msg (@boot_globals linux_ppc64)) = kmsg (@boot_globals linux_ppc64) ++ [msg].
Proof.
  apply (@C2_missing_capability_gives_polling_only linux_ppc64 ∅ (@boot_globals linux_ppc64)).
  vm_compute. exact I.
Defined.

(** C2, counterexample to the claim as stated.  One flag word announcing nap
    and two latencies are arrays of mismatched lengths, and the probe
    returns two states. *)
Lemma C2_mismatched_lengths_counterexample :
  capability_mismatched (power_mgt_tree [0x00010000] [10000; 20000])
  ∧ ∃ g', @powernv_add_idle_states linux_ppc64
            (power_mgt_tree [0x00010000] [10000; 20000]) (@boot_globals linux_ppc64)
          = Ok (2, g').
Proof.
  split.
  - vm_compute. discriminate.
  - eexists. vm_compute. reflexivity.
Qed.
Section probe_table_claims.
Context `{platform}.

(** C6 (amended).  For a device tree holding both arrays with equal lengths
    and announcing no more capabilities than the table has room for, the
    probe run on the boot-time table returns 1 plus the number of
    capabilities recognised in the flag words (a word with both bits counts
    twice), and the exit latencies of the populated entries are
    non-decreasing whenever the latencies array is. *)
Theorem C6_state_count_and_latency_order dt g node F L :
  of_find_node_by_path dt "/ibm,opal/power-mgt" = Some node →
  of_get_property node "ibm,cpu-idle-state-flags" = Some F →
  of_get_property node "ibm,cpu-idle-state-latencies-ns" = Some L →
  length F = length L →
  powernv_states g = powernv_states_init →
  1 + Z.of_nat (length (be32_cells F ≫= recognized))
    ≤ MAX_POWERNV_IDLE_STATES →
  ∃ g',
    powernv_add_idle_states dt g
    = Ok (1 + Z.of_nat (length (be32_cells F ≫= recognized)), g')
    ∧ (StronglySorted Z.le (be32_cells L) →
       StronglySorted Z.le
         (exit_latency
            <$> take (1 + length (be32_cells F ≫= recognized))
                  (powernv_states g'))).
Proof.
  intros Hnode HF HL Hbytes Hboot Hfit.
  assert (Hlen : (length (be32_cells F) ≤ length (be32_cells L))%nat)
    by (rewrite !length_be32_cells, Hbytes; lia).
  assert (Hcap : Z.of_nat (length (powernv_states g))
                 = MAX_POWERNV_IDLE_STATES) by (by rewrite Hboot).
  eexists. split; [by apply (probe_run dt g node F L)|].
  intros Hsorted. simpl powernv_states.
  pose proof (length_dt_fills _ _ Hlen) as HW. rewrite <- HW.
  rewrite take_apply_fills by (rewrite HW; lia).
  rewrite fmap_app, exit_latency_zip_fills
    by (rewrite length_take, length_drop, HW; lia).
  rewrite Hboot. simpl take. simpl fmap.
  apply StronglySorted_cons. split; [|by apply dt_fills_sorted].
  pose proof (dt_fills_lower_bound 0 (be32_cells F) (be32_cells L)
                (be32_cells_nonneg L)) as Hb.
  by rewrite Forall_fmap.
Qed.

End probe_table_claims.
(** C6, witness: nap then fastsleep, latencies in increasing order. *)
Lemma C6_state_count_and_latency_order_witness :
  ∃ g',
    @powernv_add_idle_states linux_ppc64
      (power_mgt_tree [0x00010000; 0x00020000] [10000; 300000])
      (@boot_globals linux_ppc64)
    = Ok (3, g')
    ∧ (StronglySorted Z.le (be32_cells (dt_cells [10000; 300000])) →
       StronglySorted Z.le (exit_latency <$> take 3 (powernv_states g'))).
Proof.
  apply (@C6_state_count_and_latency_order linux_ppc64
           (power_mgt_tree [0x00010000; 0x00020000] [10000; 300000])
           (@boot_globals linux_ppc64)
           (power_mgt_node [0x00010000; 0x00020000] [10000; 300000])
           (dt_cells [0x00010000; 0x00020000]) (dt_cells [10000; 300000]));
    try reflexivity.
  vm_compute. discriminate.
Defined.

(** C6, counterexample to the claim as stated.  The arrays have equal
    lengths and announce two states, fastsleep first; the probe keeps the
    array order, and the exit latencies of the table are 0, 300, 10. *)
Lemma C6_latency_order_counterexample :
  length (dt_cells [0x00020000; 0x00010000])
  = length (dt_cells [300000; 10000])
  ∧ 1 + Z.of_nat (length (be32_cells (dt_cells [0x00020000; 0x00010000])
                            ≫= recognized))
    ≤ MAX_POWERNV_IDLE_STATES
  ∧ ∃ g',
      @powernv_add_idle_states linux_ppc64
        (power_mgt_tree [0x00020000; 0x00010000] [300000; 10000])
        (@boot_globals linux_ppc64)
      = Ok (3, g')
      ∧ exit_latency <$> take 3 (powernv_states g') = [0; 300; 10]
      ∧ ¬ StronglySorted Z.le (exit_latency <$> take 3 (powernv_states g')).
Proof.
  split; [reflexivity|]. split; [vm_compute; discriminate|].
  eexists. split; [vm_compute; reflexivity|].
  split; [reflexivity|].
  simpl. rewrite !StronglySorted_cons, !Forall_cons. lia.
Qed.

(** ** The descriptors the probe appends *)

Section probe_descriptors.
Context `{platform}.





End probe_descriptors.





(** ** The snooze timeout *)

Section selector.

Lemma snooze_timeout_scan_ok g dev drv n (i : nat) :
  (i + n ≤ length (states drv))%nat →
  (i + n ≤ length (states_usage dev))%nat →
  snooze_timeout_scan g dev drv n (Z.of_nat i)
  = Ok (match first_enabled
                (take n (drop i (zip (states drv) (states_usage dev)))) with
        | Some s => u64 (target_residency s * tb_ticks_per_usec g)
        | None => default_snooze_timeout g
        end).
Proof.
  revert i. induction n as [|n IH]; intros i Hs Hu; simpl; [done|].
  destruct (lookup_lt_is_Some_2 (states drv) i) as [s Hsi]; [lia|].
  destruct (lookup_lt_is_Some_2 (states_usage dev) i) as [su Hsui]; [lia|].
  assert (He : zip (states drv) (states_usage dev) !! i = Some (s, su))
    by (by rewrite lookup_zip_with, Hsi; simpl; rewrite Hsui).
  rewrite !array_get_nat, Hsi, Hsui, (drop_S _ _ _ He). simpl.
  unfold state_enabled. simpl.
  replace (Z.of_nat i + 1) with (Z.of_nat (S i)) by lia.
  destruct (disabled s); simpl; [apply IH; lia|].
  destruct (decide (disable su = 0)) as [Hd|Hd].
  - rewrite (bool_decide_true _ Hd).
    by rewrite bool_decide_false by (intros Hne; by apply Hne).
  - rewrite (bool_decide_false _ Hd), bool_decide_true by done.
    apply IH; lia.
Qed.

(** C5 (amended).  For a table whose [state_count] entries and usage
    records all exist, and an index from -1 on: with the snooze timeout
    enabled, [get_snooze_timeout] returns the target residency of the
    first state after [index] that is enabled, multiplied by
    [tb_ticks_per_usec] in 64 bits, or the default timeout if none is;
    with the snooze timeout disabled it returns the default. *)
Theorem C5_snooze_timeout_in_timebase_ticks g dev drv index :
  0 ≤ state_count drv →
  state_count drv ≤ Z.of_nat (length (states drv)) →
  state_count drv ≤ Z.of_nat (length (states_usage dev)) →
  -1 ≤ index < 2 ^ 31 - 1 →
  get_snooze_timeout g dev drv index
  = Ok (if snooze_timeout_en g
        then match next_enabled_state dev drv index with
             | Some s => u64 (target_residency s * tb_ticks_per_usec g)
             | None => default_snooze_timeout g
             end
        else default_snooze_timeout g).
Proof.
  intros Hc Hs Hu Hi. unfold get_snooze_timeout, next_enabled_state.
  destruct (snooze_timeout_en g); simpl; [|done].
  rewrite bool_decide_true by lia.
  rewrite <- (Z2Nat.id (index + 1)) at 2 by lia.
  destruct (decide (index + 1 ≤ state_count drv)) as [Hle|Hgt].
  - rewrite snooze_timeout_scan_ok by lia.
    rewrite take_drop_commute.
    replace (Z.to_nat (index + 1) + Z.to_nat (state_count drv - (index + 1)))%nat
      with (Z.to_nat (state_count drv)) by lia.
    done.
  - replace (Z.to_nat (state_count drv - (index + 1))) with 0%nat by lia.
    rewrite (drop_ge (take _ _)) by (rewrite length_take; lia). done.
Qed.

End selector.

(** C5, witness: the nap state follows the snooze state. *)
Lemma C5_snooze_timeout_witness :
  get_snooze_timeout (@probed_globals linux_ppc64) idle_device
    (@two_state_driver linux_ppc64) 0
  = Ok 51200.
Proof.
  apply (C5_snooze_timeout_in_timebase_ticks (@probed_globals linux_ppc64)
           idle_device (@two_state_driver linux_ppc64) 0);
    by_evaluation.
Defined.

(** C5, counterexample to the claim as stated.  The nap state, with a
    target residency of 100 us, is the first enabled state after index 0;
    the routine returns 51200, its residency in timebase ticks. *)
Lemma C5_target_residency_counterexample :
  spec_get_timeout (@probed_globals linux_ppc64) idle_device
    (@two_state_driver linux_ppc64) 0 = 100
  ∧ get_snooze_timeout (@probed_globals linux_ppc64) idle_device
      (@two_state_driver linux_ppc64) 0 = Ok 51200
  ∧ get_snooze_timeout (@probed_globals linux_ppc64) idle_device
      (@two_state_driver linux_ppc64) 0
    ≠ Ok (spec_get_timeout (@probed_globals linux_ppc64) idle_device
            (@two_state_driver linux_ppc64) 0).
Proof. split_and!; [reflexivity|reflexivity|vm_compute; discriminate]. Qed.

(** ** The entry routines *)

Section entry_routines.
Context `{platform}.

(** C3.  Whatever the LPCR holds at entry and whatever the sleep
    instruction leaves in it, the LPCR after [fastsleep_loop] holds its
    value from before entry; in the running phase the routine got there by
    writing the modified value, sleeping, and writing the snapshot back. *)
Theorem C3_fastsleep_restores_lpcr g dev drv index c :
  lpcr (fastsleep_loop g dev drv index c).2 = lpcr c
  ∧ trace (fastsleep_loop g dev drv index c).2
    = if bool_decide (system_state g < SYSTEM_RUNNING) then trace c
      else trace c ++ [ ev_mtspr_LPCR (fastsleep_lpcr (lpcr c));
                        ev_power7_sleep;
                        ev_mtspr_LPCR (lpcr c) ].
Proof.
  unfold fastsleep_loop. case_bool_decide; simpl; [done|].
  split; [done|]. by rewrite <- !app_assoc.
Qed.

(** C4.  Below the running phase [fastsleep_loop] returns the index it was
    given and leaves the processor as it found it: the LPCR is not
    written and the sleep instruction is not executed. *)
Theorem C4_fastsleep_before_running g dev drv index c :
  system_state g < SYSTEM_RUNNING →
  fastsleep_loop g dev drv index c = (index, c).
Proof. intros Hphase. unfold fastsleep_loop. by rewrite bool_decide_true. Qed.

Lemma snooze_poll_returns need_resched d : ∀ fuel k c,
  need_resched (k + d)%nat = true →
  (d < fuel)%nat →
  ∃ c', snooze_poll need_resched fuel k c = Ok c'.
Proof.
  induction d as [|d IH]; intros [|fuel] k c Hd Hfuel; try lia; simpl.
  - rewrite Nat.add_0_r in Hd. rewrite Hd. eauto.
  - destruct (need_resched k); [eauto|].
    apply IH; [|lia]. by rewrite Nat.add_succ_comm.
Qed.

(** C8.  Each of the three entry routines returns the index it was given:
    [snooze_loop] whenever it returns, and it does return once the
    timeout has been computed and [need_resched] answers yes;
    [nap_loop] and [fastsleep_loop] always, on both paths of the latter. *)
Theorem C8_entry_routines_return_index :
  (∀ need_resched fuel g dev drv index c r c',
     snooze_loop need_resched fuel g dev drv index c = Ok (r, c') →
     r = index)
  ∧ (∀ need_resched (k : nat) g dev drv index c timeout,
       get_snooze_timeout g dev drv index = Ok timeout →
       need_resched k = true →
       ∃ c', snooze_loop need_resched (S k) g dev drv index c
             = Ok (index, c'))
  ∧ (∀ dev drv index c, (nap_loop dev drv index c).1 = index)
  ∧ (∀ g dev drv index c, (fastsleep_loop g dev drv index c).1 = index).
Proof.
  split_and!.
  - intros need_resched fuel g dev drv index c r c'. unfold snooze_loop.
    destruct (get_snooze_timeout g dev drv index); simpl; try done.
    destruct (snooze_poll _ _ _ _); simpl; try done. by intros [= <- _].
  - intros need_resched k g dev drv index c timeout Ht Hk.
    unfold snooze_loop. rewrite Ht. cbn [obind].
    edestruct (snooze_poll_returns need_resched k (S k) 0) as [c' ->];
      [done|lia|]. simpl. eauto.
  - done.
  - intros g dev drv index c. unfold fastsleep_loop.
    by case_bool_decide.
Qed.

End entry_routines.

(** C4, witness: the system is still booting. *)
Lemma C4_fastsleep_before_running_witness :
  @fastsleep_loop linux_ppc64 (@boot_globals linux_ppc64) idle_device
    (@two_state_driver linux_ppc64) 2 idle_cpu
  = (2, idle_cpu).
Proof.
  apply (@C4_fastsleep_before_running linux_ppc64). by_evaluation.
Defined.

(** C8, witness: work is pending at the third poll. *)
Lemma C8_entry_routines_return_index_witness :
  ∃ c', snooze_loop (λ k, bool_decide (2 ≤ k)%nat) 3
          (@probed_globals linux_ppc64) idle_device
          (@two_state_driver linux_ppc64) 0 idle_cpu
        = Ok (0, c').
Proof.
  apply (proj1 (proj2 (@C8_entry_routines_return_index linux_ppc64))
           (λ k, bool_decide (2 ≤ k)%nat) 2%nat
           (@probed_globals linux_ppc64) idle_device
           (@two_state_driver linux_ppc64) 0 idle_cpu 51200);
    by_evaluation.
Defined.

(** ** The hotplug notifier *)

Section hotplug_notifier.
Context `{platform}.

(** C9.  For an action that is none of [CPU_ONLINE], [CPU_ONLINE_FROZEN],
    [CPU_DEAD] and [CPU_DEAD_FROZEN] the notifier calls nothing and
    changes nothing: no device is enabled or disabled, and it answers
    [NOTIFY_DONE] when the cpu has a device and a driver is registered,
    [NOTIFY_OK] otherwise. *)
Theorem C9_other_actions_are_ignored action hcpu k :
  action ≠ CPU_ONLINE →
  action ≠ CPU_ONLINE_FROZEN →
  action ≠ CPU_DEAD →
  action ≠ CPU_DEAD_FROZEN →
  (powernv_cpuidle_add_cpu_notifier action hcpu k).2 = k
  ∧ (powernv_cpuidle_add_cpu_notifier action hcpu k).1
    = match cpuidle_devices k !! to_int hcpu, cpuidle_get_driver k with
      | Some _, Some _ => NOTIFY_DONE
      | _, _ => NOTIFY_OK
      end.
Proof.
  intros H1 H2 H3 H4. unfold powernv_cpuidle_add_cpu_notifier.
  destruct (cpuidle_devices k !! to_int hcpu); [|done].
  destruct (cpuidle_get_driver k); [|done].
  by rewrite !bool_decide_false by done.
Qed.

End hotplug_notifier.

(** C9, witness: [CPU_UP_PREPARE] (0x0003) for cpu 0. *)
Lemma C9_other_actions_are_ignored_witness :
  (@powernv_cpuidle_add_cpu_notifier linux_ppc64 0x0003 0
     (@one_core linux_ppc64)).2 = @one_core linux_ppc64
  ∧ (@powernv_cpuidle_add_cpu_notifier linux_ppc64 0x0003 0
       (@one_core linux_ppc64)).1 = 0.
Proof.
  apply (@C9_other_actions_are_ignored linux_ppc64 0x0003 0
           (@one_core linux_ppc64));
    by_evaluation.
Defined.


(** * Further properties of the driver *)

(** ** The probe at and beyond the table's capacity *)

Section probe_bounds.
Context `{platform}.

Lemma add_state_full fill (nr : nat) tbl :
  nr = length tbl →
  add_state fill (Z.of_nat nr, tbl)
  = Fault (StoreOutOfBounds "powernv_states" (Z.of_nat (length tbl))).
Proof.
  intros ->. unfold add_state. rewrite array_get_nat.
  by rewrite lookup_ge_None_2.
Qed.

Lemma dt_state_step_overflow F L (i nr : nat) tbl f l :
  be32_cells F !! i = Some f →
  be32_cells L !! i = Some l →
  (nr ≤ length tbl)%nat →
  (length tbl < nr + length (recognized f))%nat →
  dt_state_step F L (Z.of_nat i) (Z.of_nat nr, tbl)
  = Fault (StoreOutOfBounds "powernv_states" (Z.of_nat (length tbl))).
Proof.
  intros Hf Hl Hle. unfold dt_state_step, recognized.
  rewrite !array_get_nat, Hf, Hl.
  change (nap_state l) with (fill_of (fn_nap_loop, l)).
  change (fastsleep_state l) with (fill_of (fn_fastsleep_loop, l)).
  do 2 case_bool_decide; cbn [length app]; intros Hgt; try lia.
  - destruct (decide (nr = length tbl)) as [Heq|Hne].
    + by rewrite add_state_full.
    + rewrite add_state_ok by lia. cbn [obind].
      rewrite add_state_full by (cbn; rewrite length_alter; lia).
      cbn. by rewrite length_alter.
  - rewrite add_state_full by lia. done.
  - cbn [obind]. rewrite add_state_full by lia. done.
Qed.

Lemma dt_state_loop_overflow F L n (i nr : nat) tbl :
  (i + n ≤ length (be32_cells F))%nat →
  (i + n ≤ length (be32_cells L))%nat →
  (nr ≤ length tbl)%nat →
  (length tbl
   < nr + length (dt_fills (take n (drop i (be32_cells F)))
                           (take n (drop i (be32_cells L)))))%nat →
  dt_state_loop F L n (Z.of_nat i) (Z.of_nat nr, tbl)
  = Fault (StoreOutOfBounds "powernv_states" (Z.of_nat (length tbl))).
Proof.
  revert i nr tbl. induction n as [|n IH]; intros i nr tbl HF HL Hle.
  - simpl. lia.
  - destruct (lookup_lt_is_Some_2 (be32_cells F) i) as [f Hf]; [lia|].
    destruct (lookup_lt_is_Some_2 (be32_cells L) i) as [l Hl]; [lia|].
    rewrite (drop_S _ _ _ Hf), (drop_S _ _ _ Hl).
    cbn [take dt_fills dt_state_loop].
    rewrite length_app, length_fmap. intros Hgt.
    destruct (decide (nr + length (recognized f) ≤ length tbl)%nat)
      as [Hfit|Hover].
    + rewrite (dt_state_step_ok F L i nr tbl f l Hf Hl Hfit). cbn [obind].
      replace (Z.of_nat i + 1) with (Z.of_nat (S i)) by lia.
      rewrite IH; rewrite ?length_apply_fills; [done|lia..].
    + rewrite (dt_state_step_overflow F L i nr tbl f l Hf Hl) by lia.
      done.
Qed.

Lemma whole_loop_store_fault F L tbl :
  (length (be32_cells F) ≤ length (be32_cells L))%nat →
  Z.of_nat (length tbl) = MAX_POWERNV_IDLE_STATES →
  MAX_POWERNV_IDLE_STATES
    < 1 + Z.of_nat (length (be32_cells F ≫= recognized)) →
  dt_state_loop F L (length (be32_cells F)) 0 (1, tbl)
  = Fault (StoreOutOfBounds "powernv_states" MAX_POWERNV_IDLE_STATES).
Proof.
  intros Hlen Hcap Hover.
  pose proof (dt_state_loop_overflow F L (length (be32_cells F)) 0 1 tbl)
    as Hloop.
  rewrite !drop_0, firstn_all, dt_fills_take, length_dt_fills in Hloop
    by done.
  change (Z.of_nat 0) with 0 in Hloop. change (Z.of_nat 1) with 1 in Hloop.
  rewrite Hloop, Hcap; [done|unfold MAX_POWERNV_IDLE_STATES in *; lia..].
Qed.

Lemma probe_store_fault dt g node F L :
  of_find_node_by_path dt "/ibm,opal/power-mgt" = Some node →
  of_get_property node "ibm,cpu-idle-state-flags" = Some F →
  of_get_property node "ibm,cpu-idle-state-latencies-ns" = Some L →
  (length (be32_cells F) ≤ length (be32_cells L))%nat →
  Z.of_nat (length (powernv_states g)) = MAX_POWERNV_IDLE_STATES →
  MAX_POWERNV_IDLE_STATES
    < 1 + Z.of_nat (length (be32_cells F ≫= recognized)) →
  powernv_add_idle_states dt g
  = Fault (StoreOutOfBounds "powernv_states" MAX_POWERNV_IDLE_STATES).
Proof.
  intros Hnode HF HL Hlen Hcap Hover.
  unfold powernv_add_idle_states. rewrite Hnode, HF, HL.
  rewrite <- length_be32_cells.
  by rewrite whole_loop_store_fault.
Qed.

(** X1.  When both properties are there with a latency for every flag
    word, and the flag words announce more capabilities than the 7 free
    slots of the table, the probe does not return: it stores into
    [powernv_states[8]]. *)
Theorem probe_overflows_beyond_seven_capabilities dt g node F L :
  of_find_node_by_path dt "/ibm,opal/power-mgt" = Some node →
  of_get_property node "ibm,cpu-idle-state-flags" = Some F →
  of_get_property node "ibm,cpu-idle-state-latencies-ns" = Some L →
  (length (be32_cells F) ≤ length (be32_cells L))%nat →
  Z.of_nat (length (powernv_states g)) = MAX_POWERNV_IDLE_STATES →
  MAX_POWERNV_IDLE_STATES
    < 1 + Z.of_nat (length (be32_cells F ≫= recognized)) →
  powernv_add_idle_states dt g
  = Fault (StoreOutOfBounds "powernv_states" MAX_POWERNV_IDLE_STATES).
Proof.
  intros Hnode HF HL Hlen Hcap Hover.
  unfold powernv_add_idle_states, of_find_node_by_path, of_get_property in *.
  rewrite Hnode, HF, HL, <- length_be32_cells.
  rewrite (whole_loop_store_fault F L (powernv_states g) Hlen Hcap Hover).
  reflexivity.
Qed.

End probe_bounds.

(** X1, witness: eight flag words announcing nap. *)
Lemma probe_overflows_beyond_seven_capabilities_witness :
  @powernv_add_idle_states linux_ppc64
    (power_mgt_tree (replicate 8 0x00010000) (replicate 8 10000))
    (@boot_globals linux_ppc64)
  = Fault (StoreOutOfBounds "powernv_states" MAX_POWERNV_IDLE_STATES).
Proof.
  apply (@probe_overflows_beyond_seven_capabilities linux_ppc64
           (power_mgt_tree (replicate 8 0x00010000) (replicate 8 10000))
           (@boot_globals linux_ppc64)
           (power_mgt_node (replicate 8 0x00010000) (replicate 8 10000))
           (dt_cells (replicate 8 0x00010000))
           (dt_cells (replicate 8 10000)));
    by_evaluation.
Defined.

(** ** What the probe leaves alone *)

Section probe_frame.
Context `{platform}.

Lemma disabled_fill_of w s : disabled (fill_of w s) = disabled s.
Proof. by destruct w as [[] l]. Qed.

Lemma enter_fill_of w s : is_Some (enter (fill_of w s)).
Proof. destruct w as [[] l]; by eexists. Qed.

Lemma lookup_apply_fills_lt k W tbl j :
  (k + length W ≤ length tbl)%nat →
  (j < k)%nat →
  apply_fills k W tbl !! j = tbl !! j.
Proof.
  intros Hfit Hj. rewrite apply_fills_shape by done.
  rewrite lookup_app_l by (rewrite length_take; lia).
  by apply lookup_take_lt.
Qed.

Lemma lookup_apply_fills_ge k W tbl j :
  (k + length W ≤ length tbl)%nat →
  (k + length W ≤ j)%nat →
  apply_fills k W tbl !! j = tbl !! j.
Proof.
  intros Hfit Hj. rewrite apply_fills_shape by done.
  assert (Hz : length (zip_with fill_of W (take (length W) (drop k tbl)))
               = length W)
    by (rewrite length_zip_with, length_take, length_drop; lia).
  rewrite lookup_app_r by (rewrite length_take; lia).
  rewrite lookup_app_r by (rewrite Hz, length_take; lia).
  rewrite lookup_drop, Hz, length_take. f_equal. lia.
Qed.

Lemma lookup_apply_fills_inv k W tbl j s :
  (k + length W ≤ length tbl)%nat →
  (k ≤ j < k + length W)%nat →
  apply_fills k W tbl !! j = Some s →
  ∃ w s0, W !! (j - k)%nat = Some w ∧ tbl !! j = Some s0 ∧ s = fill_of w s0.
Proof.
  intros Hfit Hj Hs.
  destruct (lookup_lt_is_Some_2 W (j - k)) as [w Hw]; [lia|].
  destruct (lookup_apply_fills k W tbl (j - k) w Hfit Hw) as (s0 & Hs0 & Hs').
  replace (k + (j - k))%nat with j in * by lia.
  exists w, s0. split_and!; [done..|congruence].
Qed.

(** X2.  On a device tree with both properties, a latency for every flag
    word and room for every capability, the probe writes slots 1 to
    count - 1 and nothing else: the table keeps its length, slot 0 and
    the slots from the returned count on keep their contents, every
    populated slot keeps its [disabled] flag and has a callback, and the
    other variables, the kernel log included, are unchanged. *)
Theorem probe_writes_only_announced_slots dt g node F L :
  of_find_node_by_path dt "/ibm,opal/power-mgt" = Some node →
  of_get_property node "ibm,cpu-idle-state-flags" = Some F →
  of_get_property node "ibm,cpu-idle-state-latencies-ns" = Some L →
  (length (be32_cells F) ≤ length (be32_cells L))%nat →
  Z.of_nat (length (powernv_states g)) = MAX_POWERNV_IDLE_STATES →
  1 + Z.of_nat (length (be32_cells F ≫= recognized))
    ≤ MAX_POWERNV_IDLE_STATES →
  ∃ nr tbl,
    powernv_add_idle_states dt g = Ok (Z.of_nat nr, set_powernv_states tbl g)
    ∧ length tbl = length (powernv_states g)
    ∧ tbl !! 0%nat = powernv_states g !! 0%nat
    ∧ (∀ j, (nr ≤ j)%nat → tbl !! j = powernv_states g !! j)
    ∧ (∀ j s, (1 ≤ j < nr)%nat → tbl !! j = Some s →
         is_Some (enter s)
         ∧ ∃ s0, powernv_states g !! j = Some s0 ∧ disabled s = disabled s0).
Proof.
  intros Hnode HF HL Hlen Hcap Hfit.
  pose proof (length_dt_fills _ _ Hlen) as HW.
  exists (1 + length (be32_cells F ≫= recognized))%nat,
    (apply_fills 1 (dt_fills (be32_cells F) (be32_cells L))
       (powernv_states g)).
  assert (Hroom : (1 + length (dt_fills (be32_cells F) (be32_cells L))
                   ≤ length (powernv_states g))%nat)
    by (unfold MAX_POWERNV_IDLE_STATES in *; lia).
  split_and!.
  - rewrite (probe_run dt g node F L) by done. by rewrite Nat2Z.inj_add.
  - apply length_apply_fills.
  - apply lookup_apply_fills_lt; [done|lia].
  - intros j Hj. apply lookup_apply_fills_ge; [done|lia].
  - intros j s Hj Hs.
    destruct (lookup_apply_fills_inv 1 _ _ j s Hroom ltac:(lia) Hs)
      as (w & s0 & _ & Hs0 & ->).
    rewrite disabled_fill_of. eauto using enter_fill_of.
Qed.

End probe_frame.

(** X2, witness: nap then fastsleep. *)
Lemma probe_writes_only_announced_slots_witness :
  ∃ nr tbl,
    @powernv_add_idle_states linux_ppc64
      (power_mgt_tree [0x00010000; 0x00020000] [10000; 300000])
      (@boot_globals linux_ppc64)
    = Ok (Z.of_nat nr, set_powernv_states tbl (@boot_globals linux_ppc64))
    ∧ length tbl = length (powernv_states (@boot_globals linux_ppc64))
    ∧ tbl !! 0%nat = powernv_states (@boot_globals linux_ppc64) !! 0%nat
    ∧ (∀ j, (nr ≤ j)%nat →
         tbl !! j = powernv_states (@boot_globals linux_ppc64) !! j)
    ∧ (∀ j s, (1 ≤ j < nr)%nat → tbl !! j = Some s →
         is_Some (enter s)
         ∧ ∃ s0, powernv_states (@boot_globals linux_ppc64) !! j = Some s0
                 ∧ disabled s = disabled s0).
Proof.
  apply (@probe_writes_only_announced_slots linux_ppc64
           (power_mgt_tree [0x00010000; 0x00020000] [10000; 300000])
           (@boot_globals linux_ppc64)
           (power_mgt_node [0x00010000; 0x00020000] [10000; 300000])
           (dt_cells [0x00010000; 0x00020000]) (dt_cells [10000; 300000]));
    by_evaluation.
Defined.

(** ** A flag word without a latency *)

Section probe_short_latencies.
Context `{platform}.

Lemma dt_state_loop_app F L a b i st :
  dt_state_loop F L (a + b) i st
  = do st' <- dt_state_loop F L a i st;
    dt_state_loop F L b (i + Z.of_nat a) st'.
Proof.
  revert i st. induction a as [|a IH]; intros i st.
  - simpl. by rewrite Z.add_0_r.
  - cbn [Nat.add dt_state_loop].
    destruct (dt_state_step F L i st) as [st1| |]; cbn [obind]; [|done..].
    rewrite IH. do 2 f_equal. lia.
Qed.

Lemma whole_loop_load_fault F L tbl :
  (length (be32_cells L) < length (be32_cells F))%nat →
  Z.of_nat (length tbl) = MAX_POWERNV_IDLE_STATES →
  1 + Z.of_nat (length (take (length (be32_cells L)) (be32_cells F)
                          ≫= recognized))
    ≤ MAX_POWERNV_IDLE_STATES →
  dt_state_loop F L (length (be32_cells F)) 0 (1, tbl)
  = Fault (LoadOutOfBounds "idle_state_latency"
             (Z.of_nat (length (be32_cells L)))).
Proof.
  intros Hlen Hcap Hfit.
  set (nL := length (be32_cells L)) in *.
  replace (length (be32_cells F))
    with (nL + S (length (be32_cells F) - S nL))%nat by lia.
  rewrite dt_state_loop_app.
  pose proof (dt_state_loop_ok F L nL 0 1 tbl) as Hloop.
  cbv zeta in Hloop. rewrite !drop_0 in Hloop.
  rewrite (length_dt_fills (take nL (be32_cells F))) in Hloop
    by (rewrite !length_take; lia).
  change (Z.of_nat 0) with 0 in Hloop. change (Z.of_nat 1) with 1 in Hloop.
  rewrite Hloop by (unfold MAX_POWERNV_IDLE_STATES in *; lia).
  cbn [obind dt_state_loop]. unfold dt_state_step.
  rewrite Z.add_0_l, !array_get_nat.
  destruct (lookup_lt_is_Some_2 (be32_cells F) nL) as [f ->]; [lia|].
  by rewrite lookup_ge_None_2.
Qed.

Lemma probe_load_fault dt g node F L :
  of_find_node_by_path dt "/ibm,opal/power-mgt" = Some node →
  of_get_property node "ibm,cpu-idle-state-flags" = Some F →
  of_get_property node "ibm,cpu-idle-state-latencies-ns" = Some L →
  (length (be32_cells L) < length (be32_cells F))%nat →
  Z.of_nat (length (powernv_states g)) = MAX_POWERNV_IDLE_STATES →
  1 + Z.of_nat (length (take (length (be32_cells L)) (be32_cells F)
                          ≫= recognized))
    ≤ MAX_POWERNV_IDLE_STATES →
  powernv_add_idle_states dt g
  = Fault (LoadOutOfBounds "idle_state_latency"
             (Z.of_nat (length (be32_cells L)))).
Proof.
  intros Hnode HF HL Hlen Hcap Hfit.
  unfold powernv_add_idle_states. rewrite Hnode, HF, HL.
  rewrite <- length_be32_cells.
  by rewrite whole_loop_load_fault.
Qed.

(** X3.  The lengths of the two properties are not compared: when the
    latencies property has fewer cells than the flags property, and the
    capabilities of the flag words that do have a latency fit the table,
    the probe reads [idle_state_latency] at the first index past its
    end. *)
Theorem probe_reads_past_short_latencies dt g node F L :
  of_find_node_by_path dt "/ibm,opal/power-mgt" = Some node →
  of_get_property node "ibm,cpu-idle-state-flags" = Some F →
  of_get_property node "ibm,cpu-idle-state-latencies-ns" = Some L →
  (length (be32_cells L) < length (be32_cells F))%nat →
  Z.of_nat (length (powernv_states g)) = MAX_POWERNV_IDLE_STATES →
  1 + Z.of_nat (length (take (length (be32_cells L)) (be32_cells F)
                          ≫= recognized))
    ≤ MAX_POWERNV_IDLE_STATES →
  powernv_add_idle_states dt g
  = Fault (LoadOutOfBounds "idle_state_latency"
             (Z.of_nat (length (be32_cells L)))).
Proof.
  intros Hnode HF HL Hlen Hcap Hfit.
  unfold powernv_add_idle_states, of_find_node_by_path, of_get_property in *.
  rewrite Hnode, HF, HL, <- length_be32_cells.
  rewrite (whole_loop_load_fault F L (powernv_states g) Hlen Hcap Hfit).
  reflexivity.
Qed.

End probe_short_latencies.

(** X3, witness: two flag words and one latency. *)
Lemma probe_reads_past_short_latencies_witness :
  @powernv_add_idle_states linux_ppc64
    (power_mgt_tree [0x00010000; 0x00020000] [10000])
    (@boot_globals linux_ppc64)
  = Fault (LoadOutOfBounds "idle_state_latency" 1).
Proof.
  apply (@probe_reads_past_short_latencies linux_ppc64
           (power_mgt_tree [0x00010000; 0x00020000] [10000])
           (@boot_globals linux_ppc64)
           (power_mgt_node [0x00010000; 0x00020000] [10000])
           (dt_cells [0x00010000; 0x00020000]) (dt_cells [10000]));
    by_evaluation.
Defined.

(** ** The numbers in the descriptors *)

Section probe_numbers.
Context `{platform}.

Lemma byte_to_Z_bound b : 0 ≤ byte_to_Z b < 256.
Proof. destruct b; by vm_compute. Qed.

Lemma be32_to_cpu_bound b0 b1 b2 b3 : 0 ≤ be32_to_cpu b0 b1 b2 b3 < 2 ^ 32.
Proof.
  split; [apply be32_to_cpu_nonneg|]. unfold be32_to_cpu.
  pose proof (byte_to_Z_bound b0). pose proof (byte_to_Z_bound b1).
  pose proof (byte_to_Z_bound b2). pose proof (byte_to_Z_bound b3).
  assert (Hlor : ∀ a b, 0 ≤ a → 0 ≤ b → Z.lor a b ≤ a + b).
  { intros a b Ha Hb. pose proof (Z.add_lor_land a b).
    pose proof (proj2 (Z.land_nonneg a b) (or_introl Ha)). lia. }
  rewrite !Z.shiftl_mul_pow2 by lia.
  set (x3 := byte_to_Z b3) in *.
  set (x2 := byte_to_Z b2 * 2 ^ 8) in *.
  set (x1 := byte_to_Z b1 * 2 ^ 16) in *.
  set (x0 := byte_to_Z b0 * 2 ^ 24) in *.
  assert (0 ≤ Z.lor x2 x3 ≤ x2 + x3)
    by (split; [apply Z.lor_nonneg|apply Hlor]; lia).
  assert (0 ≤ Z.lor x1 (Z.lor x2 x3) ≤ x1 + (x2 + x3))
    by (split; [apply Z.lor_nonneg|etrans; [apply Hlor|]]; lia).
  assert (Z.lor x0 (Z.lor x1 (Z.lor x2 x3)) ≤ x0 + (x1 + (x2 + x3)))
    by (etrans; [apply Hlor|]; lia).
  subst x0 x1 x2 x3. lia.
Qed.

Lemma be32_cells_bound bs : Forall (λ v, 0 ≤ v < 2 ^ 32) (be32_cells bs).
Proof.
  assert (Hgen : ∀ n bs, (length bs < n)%nat →
    Forall (λ v, 0 ≤ v < 2 ^ 32) (be32_cells bs)).
  { clear bs. induction n as [|n IH]; intros bs Hn; [lia|].
    destruct bs as [|b0 [|b1 [|b2 [|b3 rest]]]]; try by constructor.
    cbn [be32_cells]. constructor; [apply be32_to_cpu_bound|].
    apply IH. simpl in Hn. lia. }
  apply (Hgen (S (length bs))). lia.
Qed.

Lemma dt_fills_latencies (P : Z → Prop) fs ls :
  Forall P ls → Forall (λ w, P w.2) (dt_fills fs ls).
Proof.
  revert ls. induction fs as [|f fs IH]; intros [|l ls] Hall; simpl;
    try by constructor.
  apply Forall_cons in Hall as [Hl Hall].
  apply Forall_app. split; [|by apply IH].
  by apply Forall_fmap, Forall_forall.
Qed.

(** X4.  Every descriptor the probe appends holds an exit latency of at
    most 4294967 us and a target residency of at most 42949672 us, and the
    target residency lies between ten times the exit latency and ten
    times the exit latency plus 9: the "10x" of the source comment holds
    up to the remainder lost by the two divisions. *)
Theorem probe_descriptor_numbers dt g node F L nr g' (j : nat) s :
  of_find_node_by_path dt "/ibm,opal/power-mgt" = Some node →
  of_get_property node "ibm,cpu-idle-state-flags" = Some F →
  of_get_property node "ibm,cpu-idle-state-latencies-ns" = Some L →
  Z.of_nat (length (powernv_states g)) = MAX_POWERNV_IDLE_STATES →
  powernv_add_idle_states dt g = Ok (nr, g') →
  1 ≤ Z.of_nat j < nr →
  powernv_states g' !! j = Some s →
  0 ≤ exit_latency s ≤ 4294967
  ∧ target_residency s ≤ 42949672
  ∧ 10 * exit_latency s ≤ target_residency s ≤ 10 * exit_latency s + 9.
Proof.
  intros Hnode HF HL Hcap Hrun Hj Hs.
  destruct (decide (length (be32_cells F) ≤ length (be32_cells L))%nat)
    as [Hlen|Hlen].
  2: { destruct (decide (1 + Z.of_nat (length (take (length (be32_cells L))
                                    (be32_cells F) ≫= recognized))
                         ≤ MAX_POWERNV_IDLE_STATES)) as [Hfit|Hover].
       - rewrite (probe_load_fault dt g node F L) in Hrun
           by (done || lia). done.
       - revert Hrun. unfold powernv_add_idle_states.
         rewrite Hnode, HF, HL, <- length_be32_cells.
         set (nL := length (be32_cells L)) in *.
         replace (length (be32_cells F))
           with (nL + (length (be32_cells F) - nL))%nat by lia.
         rewrite dt_state_loop_app.
         pose proof (dt_state_loop_overflow F L nL 0 1 (powernv_states g))
           as Hloop.
         rewrite !drop_0 in Hloop.
         rewrite (length_dt_fills (take nL (be32_cells F))) in Hloop
           by (rewrite !length_take; lia).
         change (Z.of_nat 0) with 0 in Hloop.
         change (Z.of_nat 1) with 1 in Hloop.
         rewrite Hloop by (unfold MAX_POWERNV_IDLE_STATES in *; lia).
         done. }
  destruct (decide (1 + Z.of_nat (length (be32_cells F ≫= recognized))
                    ≤ MAX_POWERNV_IDLE_STATES)) as [Hfit|Hover].
  2: { rewrite (probe_store_fault dt g node F L)
         in Hrun by (done || lia). done. }
  rewrite (probe_run dt g node F L) in Hrun by done.
  injection Hrun as <- <-. cbn [powernv_states set_powernv_states] in Hs.
  pose proof (length_dt_fills _ _ Hlen) as HW.
  assert (Hroom : (1 + length (dt_fills (be32_cells F) (be32_cells L))
                   ≤ length (powernv_states g))%nat)
    by (unfold MAX_POWERNV_IDLE_STATES in *; lia).
  assert (Hin : (1 ≤ j < 1 + length (dt_fills (be32_cells F) (be32_cells L)))%nat)
    by lia.
  destruct (lookup_apply_fills_inv 1 _ _ j s Hroom Hin Hs)
    as (w & s0 & Hw & _ & ->).
  pose proof (dt_fills_latencies _ (be32_cells F) _ (be32_cells_bound L))
    as Hall.
  rewrite Forall_forall in Hall.
  specialize (Hall w (list_elem_of_lookup_2 _ _ _ Hw)). simpl in Hall.
  destruct w as [kind l]; simpl in *.
  assert (exit_latency (fill_of (kind, l) s0) = l / 1000
          ∧ target_residency (fill_of (kind, l) s0) = l / 100)
    as [-> ->] by (by destruct kind).
  change (2 ^ 32) with 4294967296 in Hall.
  Z.div_mod_to_equations. lia.
Qed.

End probe_numbers.

(** X4, witness: the fastsleep entry of a two-state device tree. *)
Lemma probe_descriptor_numbers_witness :
  0 ≤ exit_latency (@fastsleep_state linux_ppc64 300000 zero_state) ≤ 4294967
  ∧ target_residency (@fastsleep_state linux_ppc64 300000 zero_state)
    ≤ 42949672
  ∧ 10 * exit_latency (@fastsleep_state linux_ppc64 300000 zero_state)
    ≤ target_residency (@fastsleep_state linux_ppc64 300000 zero_state)
    ≤ 10 * exit_latency (@fastsleep_state linux_ppc64 300000 zero_state) + 9.
Proof.
  apply (@probe_descriptor_numbers linux_ppc64
           (power_mgt_tree [0x00010000; 0x00020000] [10000; 300000])
           (@boot_globals linux_ppc64)
           (power_mgt_node [0x00010000; 0x00020000] [10000; 300000])
           (dt_cells [0x00010000; 0x00020000]) (dt_cells [10000; 300000])
           3
           (set_powernv_states
              (@apply_fills linux_ppc64 1
                 [(fn_nap_loop, 10000); (fn_fastsleep_loop, 300000)]
                 (@powernv_states_init linux_ppc64))
              (@boot_globals linux_ppc64))
           2%nat);
    by_evaluation.
Defined.

(** ** More on the snooze timeout *)

Section selector_steps.

Lemma snooze_timeout_scan_skip g dev drv n (i : Z) s :
  array_get (states drv) i = Some s →
  (disabled s = true
   ∨ ∃ su, array_get (states_usage dev) i = Some su ∧ disable su ≠ 0) →
  snooze_timeout_scan g dev drv (S n) i
  = snooze_timeout_scan g dev drv n (i + 1).
Proof.
  intros Hs Hoff. cbn [snooze_timeout_scan]. rewrite Hs.
  destruct (disabled s); [done|].
  destruct Hoff as [|(su & -> & Hsu)]; [done|].
  by rewrite bool_decide_true.
Qed.

(** X5.  A state that is switched off, by the driver ([disabled]) or by
    the user ([disable] in its usage record), is passed over: when the
    state right after [index] is off and lies within the table, the
    timeout computed for [index] is the one computed for [index + 1]. *)
Theorem snooze_timeout_skips_disabled_state g dev drv index s :
  -1 ≤ index →
  index + 1 < state_count drv →
  state_count drv ≤ 2 ^ 31 - 1 →
  array_get (states drv) (index + 1) = Some s →
  (disabled s = true
   ∨ ∃ su, array_get (states_usage dev) (index + 1) = Some su
           ∧ disable su ≠ 0) →
  get_snooze_timeout g dev drv index
  = get_snooze_timeout g dev drv (index + 1).
Proof.
  intros Hlo Hhi Hint Hs Hoff. unfold get_snooze_timeout.
  destruct (snooze_timeout_en g); cbn [negb]; [|done].
  rewrite !bool_decide_true by lia.
  replace (Z.to_nat (state_count drv - (index + 1)))
    with (S (Z.to_nat (state_count drv - (index + 1 + 1)))) by lia.
  by apply (snooze_timeout_scan_skip g dev drv _ _ s).
Qed.

(** X6.  When the snooze timeout is not enabled, or [index] is the last
    state of the table or beyond, the timeout is the default one and no
    state or usage record is read: the result does not depend on the
    arrays. *)
Theorem snooze_timeout_default_without_scan g dev drv index dev' states' :
  snooze_timeout_en g = false
  ∨ state_count drv - 1 ≤ index < 2 ^ 31 - 1 →
  get_snooze_timeout g dev'
    {| states := states'; state_count := state_count drv |} index
  = Ok (default_snooze_timeout g)
  ∧ get_snooze_timeout g dev drv index = Ok (default_snooze_timeout g).
Proof.
  intros Hcase. unfold get_snooze_timeout. cbn [state_count].
  destruct Hcase as [->|Hidx]; [done|].
  destruct (snooze_timeout_en g); cbn [negb]; [|done].
  rewrite bool_decide_true by lia.
  replace (Z.to_nat (state_count drv - (index + 1))) with 0%nat by lia.
  done.
Qed.

End selector_steps.

(** X5, witness: the nap state of a three-state table is disabled by the
    user, so snooze waits for the fastsleep state. *)
Lemma snooze_timeout_skips_disabled_state_witness :
  get_snooze_timeout (@probed_globals linux_ppc64)
    {| states_usage := [ {| disable := 0 |}; {| disable := 1 |};
                         {| disable := 0 |} ];
       enabled := true |}
    {| states := take 3 (@powernv_states_init linux_ppc64);
       state_count := 3 |} 0
  = get_snooze_timeout (@probed_globals linux_ppc64)
      {| states_usage := [ {| disable := 0 |}; {| disable := 1 |};
                           {| disable := 0 |} ];
         enabled := true |}
      {| states := take 3 (@powernv_states_init linux_ppc64);
         state_count := 3 |} (0 + 1).
Proof.
  apply (snooze_timeout_skips_disabled_state (@probed_globals linux_ppc64)
           {| states_usage := [ {| disable := 0 |}; {| disable := 1 |};
                                {| disable := 0 |} ];
              enabled := true |}
           {| states := take 3 (@powernv_states_init linux_ppc64);
              state_count := 3 |} 0
           (default zero_state
              (take 3 (@powernv_states_init linux_ppc64) !! 1%nat)));
    try by_evaluation.
  right. exists {| disable := 1 |}. split; by_evaluation.
Defined.

(** X6, witness: index 1 is the last state of a two-state table; the
    other driver has no states at all and its device no usage records. *)
Lemma snooze_timeout_default_without_scan_witness :
  get_snooze_timeout (@probed_globals linux_ppc64)
    {| states_usage := []; enabled := true |}
    {| states := [];
       state_count := state_count (@two_state_driver linux_ppc64) |} 1
  = Ok (default_snooze_timeout (@probed_globals linux_ppc64))
  ∧ get_snooze_timeout (@probed_globals linux_ppc64) idle_device
      (@two_state_driver linux_ppc64) 1
    = Ok (default_snooze_timeout (@probed_globals linux_ppc64)).
Proof.
  apply (snooze_timeout_default_without_scan (@probed_globals linux_ppc64)
           idle_device (@two_state_driver linux_ppc64) 1
           {| states_usage := []; enabled := true |} []).
  right. simpl. lia.
Defined.

(** ** The snooze loop *)

Section snooze.


Lemma snooze_poll_no_work need_resched : ∀ fuel k c,
  (∀ j, (j < fuel)%nat → need_resched (k + j)%nat = false) →
  snooze_poll need_resched fuel k c = OutOfFuel.
Proof.
  induction fuel as [|fuel IH]; intros k c Hno; cbn [snooze_poll]; [done|].
  rewrite <- (Nat.add_0_r k) at 1. rewrite (Hno 0%nat) by lia.
  apply IH. intros j Hj. rewrite Nat.add_succ_comm. apply Hno. lia.
Qed.


(** X8.  [snooze_loop] does not return while no work is pending: if
    [need_resched] answers no to each of its first [fuel] calls, [fuel]
    turns of the loop do not end it. *)
Theorem snooze_loop_keeps_polling need_resched fuel g dev drv index c
    timeout :
  get_snooze_timeout g dev drv index = Ok timeout →
  (∀ j, (j < fuel)%nat → need_resched j = false) →
  snooze_loop need_resched fuel g dev drv index c = OutOfFuel.
Proof.
  intros Ht Hno. unfold snooze_loop. rewrite Ht. cbn [obind].
  by rewrite snooze_poll_no_work.
Qed.

End snooze.


(** X8, witness: no work during five turns. *)
Lemma snooze_loop_keeps_polling_witness :
  snooze_loop (λ k, bool_decide (7 ≤ k)%nat) 5
    (@probed_globals linux_ppc64) idle_device
    (@two_state_driver linux_ppc64) 0 idle_cpu
  = OutOfFuel.
Proof.
  apply (snooze_loop_keeps_polling (λ k, bool_decide (7 ≤ k)%nat) 5%nat
           (@probed_globals linux_ppc64) idle_device
           (@two_state_driver linux_ppc64) 0 idle_cpu 51200);
    try by_evaluation.
  intros j Hj. apply bool_decide_eq_false. lia.
Defined.

(** ** The LPCR value written before the sleep *)

Section fastsleep_bits.
Context `{platform}.

Lemma testbit_u64 x n :
  Z.testbit (u64 x) n = (n <? 64) && Z.testbit x n.
Proof. unfold u64. by rewrite Z.testbit_mod_pow2 by lia. Qed.

Lemma testbit_above_u64 a n :
  0 ≤ a < 2 ^ 64 → 64 ≤ n → Z.testbit a n = false.
Proof.
  intros Ha Hn. rewrite <- (Z.mod_small a (2 ^ 64)) by done.
  apply Z.mod_pow2_bits_high. lia.
Qed.

Lemma fastsleep_lpcr_testbit old n :
  0 ≤ old < 2 ^ 64 →
  0 ≤ LPCR_PECE0 < 2 ^ 64 →
  0 ≤ n →
  Z.testbit (fastsleep_lpcr old) n
  = Z.testbit LPCR_PECE0 n
    || (Z.testbit old n
        && negb (Z.testbit LPCR_MER n || Z.testbit LPCR_PECE n)).
Proof.
  intros Hold Hpece0 Hn. unfold fastsleep_lpcr.
  rewrite testbit_u64, Z.lor_spec, Z.land_spec, testbit_u64.
  rewrite Z.lnot_spec, Z.lor_spec by done.
  destruct (Z.ltb_spec n 64) as [Hlt|Hge]; cbn [andb].
  - by rewrite orb_comm.
  - by rewrite (testbit_above_u64 old n), (testbit_above_u64 LPCR_PECE0 n).
Qed.

(** X9.  In the running phase, with a 64-bit LPCR and [LPCR_PECE0] a 64-bit
    mask, the value [fastsleep_loop] writes to the LPCR before it sleeps is
    a 64-bit value in which a bit is set exactly when it is a bit of
    [LPCR_PECE0], or it was set at entry and is neither a bit of
    [LPCR_MER] nor one of [LPCR_PECE]; the sleep follows that write and
    the write of the old value follows the sleep. *)
Theorem fastsleep_writes_wake_mask g dev drv index c :
  ¬ system_state g < SYSTEM_RUNNING →
  0 ≤ lpcr c < 2 ^ 64 →
  0 ≤ LPCR_PECE0 < 2 ^ 64 →
  ∃ v,
    trace (fastsleep_loop g dev drv index c).2
    = trace c ++ [ev_mtspr_LPCR v; ev_power7_sleep; ev_mtspr_LPCR (lpcr c)]
    ∧ 0 ≤ v < 2 ^ 64
    ∧ ∀ n, 0 ≤ n →
        Z.testbit v n
        = Z.testbit LPCR_PECE0 n
          || (Z.testbit (lpcr c) n
              && negb (Z.testbit LPCR_MER n || Z.testbit LPCR_PECE n)).
Proof.
  intros Hrun Hold Hpece0. exists (fastsleep_lpcr (lpcr c)).
  split; [|split].
  - unfold fastsleep_loop. rewrite bool_decide_false by done.
    cbn. by rewrite <- !app_assoc.
  - unfold fastsleep_lpcr, u64. apply Z.mod_pos_bound. lia.
  - intros n Hn. by apply fastsleep_lpcr_testbit.
Qed.

End fastsleep_bits.

(** X9, witness: a running system. *)
Lemma fastsleep_writes_wake_mask_witness :
  ∃ v,
    trace (@fastsleep_loop linux_ppc64 (@probed_globals linux_ppc64)
             idle_device (@two_state_driver linux_ppc64) 2 idle_cpu).2
    = trace idle_cpu
      ++ [ev_mtspr_LPCR v; ev_power7_sleep; ev_mtspr_LPCR (lpcr idle_cpu)]
    ∧ 0 ≤ v < 2 ^ 64
    ∧ ∀ n, 0 ≤ n →
        Z.testbit v n
        = Z.testbit (@LPCR_PECE0 linux_ppc64) n
          || (Z.testbit (lpcr idle_cpu) n
              && negb (Z.testbit (@LPCR_MER linux_ppc64) n
                       || Z.testbit (@LPCR_PECE linux_ppc64) n)).
Proof.
  apply (@fastsleep_writes_wake_mask linux_ppc64
           (@probed_globals linux_ppc64) idle_device
           (@two_state_driver linux_ppc64) 2 idle_cpu).
  - simpl. lia.
  - simpl. lia.
  - simpl. lia.
Defined.

(** ** More on the hotplug notifier *)

Section hotplug_effects.
Context `{platform}.

(** X10.  Whatever the action and the cpu, the notifier leaves the
    registered driver, the devices of all other cpus and the usage records
    of the cpu's own device as they are; it either calls nothing, or
    enables or disables the device of that cpu between
    [cpuidle_pause_and_lock] and [cpuidle_resume_and_unlock]; and it
    answers [NOTIFY_OK] or [NOTIFY_DONE]. *)
Theorem notifier_touches_one_device_under_lock action hcpu k :
  let r := (powernv_cpuidle_add_cpu_notifier action hcpu k).1 in
  let k' := (powernv_cpuidle_add_cpu_notifier action hcpu k).2 in
  cpuidle_curr_driver k' = cpuidle_curr_driver k
  ∧ (∀ cpu, cpu ≠ to_int hcpu →
       cpuidle_devices k' !! cpu = cpuidle_devices k !! cpu)
  ∧ states_usage <$> cpuidle_devices k' !! to_int hcpu
    = states_usage <$> cpuidle_devices k !! to_int hcpu
  ∧ (core_trace k' = core_trace k
     ∨ ∃ e, core_trace k'
            = core_trace k ++ [ev_cpuidle_pause_and_lock; e;
                               ev_cpuidle_resume_and_unlock]
            ∧ (e = ev_cpuidle_enable_device (to_int hcpu)
               ∨ e = ev_cpuidle_disable_device (to_int hcpu)))
  ∧ (r = NOTIFY_OK ∨ r = NOTIFY_DONE).
Proof.
  unfold powernv_cpuidle_add_cpu_notifier.
  destruct (cpuidle_devices k !! to_int hcpu) as [dev|] eqn:Hdev;
    [|cbn; rewrite Hdev; by eauto 10].
  destruct (cpuidle_get_driver k); [|cbn; rewrite Hdev; by eauto 10].
  destruct (_ || _); [|destruct (_ || _)]; cbn.
  - split_and!; [done| |by rewrite lookup_alter_eq, Hdev| |by left].
    + intros cpu Hcpu. by rewrite lookup_alter_ne.
    + right. eexists. rewrite <- !app_assoc. split; [done|by left].
  - split_and!; [done| |by rewrite lookup_alter_eq, Hdev| |by left].
    + intros cpu Hcpu. by rewrite lookup_alter_ne.
    + right. eexists. rewrite <- !app_assoc. split; [done|by right].
  - rewrite Hdev. split_and!; [done..|by left|by right].
Qed.

(** X11.  A cpu without a device, or a system without a registered
    driver, is left alone for every action, [CPU_ONLINE] and [CPU_DEAD]
    included: the notifier answers [NOTIFY_OK] and changes nothing. *)
Theorem notifier_without_device_or_driver action hcpu k :
  cpuidle_devices k !! to_int hcpu = None ∨ cpuidle_get_driver k = None →
  powernv_cpuidle_add_cpu_notifier action hcpu k = (NOTIFY_OK, k).
Proof.
  intros Hmissing. unfold powernv_cpuidle_add_cpu_notifier.
  destruct Hmissing as [->| ->]; [done|].
  by destruct (cpuidle_devices k !! to_int hcpu).
Qed.

Lemma notifier_online action hcpu k dev drv :
  cpuidle_devices k !! to_int hcpu = Some dev →
  cpuidle_get_driver k = Some drv →
  action = CPU_ONLINE ∨ action = CPU_ONLINE_FROZEN →
  powernv_cpuidle_add_cpu_notifier action hcpu k
  = (NOTIFY_OK,
     cpuidle_resume_and_unlock
       (cpuidle_enable_device (to_int hcpu) (cpuidle_pause_and_lock k))).
Proof.
  intros Hdev Hdrv Hon. unfold powernv_cpuidle_add_cpu_notifier.
  rewrite Hdev, Hdrv.
  destruct (decide (action = CPU_ONLINE)) as [Ho|Ho].
  - by rewrite (bool_decide_true _ Ho).
  - destruct Hon as [|Hf]; [done|].
    by rewrite (bool_decide_false _ Ho), (bool_decide_true _ Hf).
Qed.

Lemma notifier_offline action hcpu k dev drv :
  cpuidle_devices k !! to_int hcpu = Some dev →
  cpuidle_get_driver k = Some drv →
  action = CPU_DEAD ∨ action = CPU_DEAD_FROZEN →
  action ≠ CPU_ONLINE →
  action ≠ CPU_ONLINE_FROZEN →
  powernv_cpuidle_add_cpu_notifier action hcpu k
  = (NOTIFY_OK,
     cpuidle_resume_and_unlock
       (cpuidle_disable_device (to_int hcpu) (cpuidle_pause_and_lock k))).
Proof.
  intros Hdev Hdrv Hoff Hne1 Hne2. unfold powernv_cpuidle_add_cpu_notifier.
  rewrite Hdev, Hdrv, (bool_decide_false _ Hne1), (bool_decide_false _ Hne2).
  cbn [orb].
  destruct (decide (action = CPU_DEAD)) as [Hd|Hd].
  - by rewrite (bool_decide_true _ Hd).
  - destruct Hoff as [|Hf]; [done|].
    by rewrite (bool_decide_false _ Hd), (bool_decide_true _ Hf).
Qed.

(** X12.  For a cpu that has a device, with a driver registered: taking
    the cpu offline disables its device and bringing it online again
    enables it, both answered with [NOTIFY_OK]; after the two calls the
    devices are those from before with that device enabled, so a device
    that was enabled is back as it was. *)
Theorem notifier_offline_then_online action_off action_on hcpu k dev :
  cpuidle_devices k !! to_int hcpu = Some dev →
  is_Some (cpuidle_get_driver k) →
  action_off = CPU_DEAD ∨ action_off = CPU_DEAD_FROZEN →
  action_off ≠ CPU_ONLINE →
  action_off ≠ CPU_ONLINE_FROZEN →
  action_on = CPU_ONLINE ∨ action_on = CPU_ONLINE_FROZEN →
  let off := powernv_cpuidle_add_cpu_notifier action_off hcpu k in
  let on := powernv_cpuidle_add_cpu_notifier action_on hcpu off.2 in
  off.1 = NOTIFY_OK
  ∧ cpuidle_devices off.2 !! to_int hcpu = Some (set_enabled false dev)
  ∧ on.1 = NOTIFY_OK
  ∧ cpuidle_devices on.2
    = <[to_int hcpu := set_enabled true dev]> (cpuidle_devices k)
  ∧ (enabled dev = true → cpuidle_devices on.2 = cpuidle_devices k).
Proof.
  intros Hdev [drv Hdrv] Hoff Hne1 Hne2 Hon. cbv zeta.
  rewrite (notifier_offline action_off hcpu k dev drv) by done.
  cbn [fst snd].
  assert (Hdev' : alter (set_enabled false) (to_int hcpu) (cpuidle_devices k)
                  !! to_int hcpu = Some (set_enabled false dev))
    by (by rewrite lookup_alter_eq, Hdev).
  rewrite (notifier_online action_on hcpu _ (set_enabled false dev) drv)
    by done.
  cbn.
  assert (Hmap : alter (set_enabled true) (to_int hcpu)
                   (alter (set_enabled false) (to_int hcpu)
                      (cpuidle_devices k))
                 = <[to_int hcpu := set_enabled true dev]> (cpuidle_devices k)).
  { apply map_eq. intros cpu.
    destruct (decide (cpu = to_int hcpu)) as [->|Hcpu].
    - by rewrite lookup_alter_eq, Hdev', lookup_insert_eq.
    - by rewrite !lookup_alter_ne, lookup_insert_ne. }
  split_and!; [done..|exact Hmap|].
  intros Hen. rewrite Hmap. apply insert_id. rewrite Hdev. f_equal.
  destruct dev as [usage en]. cbn in *. by subst.
Qed.

End hotplug_effects.

(** X11, witness: cpu 5 has no device. *)
Lemma notifier_without_device_or_driver_witness :
  @powernv_cpuidle_add_cpu_notifier linux_ppc64 0x0002 5
    (@one_core linux_ppc64)
  = (1, @one_core linux_ppc64).
Proof.
  apply (@notifier_without_device_or_driver linux_ppc64 0x0002 5
           (@one_core linux_ppc64)).
  left. by_evaluation.
Defined.

(** X12, witness: cpu 0 goes offline and comes back. *)
Lemma notifier_offline_then_online_witness :
  let off := @powernv_cpuidle_add_cpu_notifier linux_ppc64 0x0007 0
               (@one_core linux_ppc64) in
  let on := @powernv_cpuidle_add_cpu_notifier linux_ppc64 0x0002 0 off.2 in
  off.1 = 1
  ∧ cpuidle_devices off.2 !! to_int 0 = Some (set_enabled false idle_device)
  ∧ on.1 = 1
  ∧ cpuidle_devices on.2
    = <[to_int 0 := set_enabled true idle_device]>
        (cpuidle_devices (@one_core linux_ppc64))
  ∧ (enabled idle_device = true →
     cpuidle_devices on.2 = cpuidle_devices (@one_core linux_ppc64)).
Proof.
  apply (@notifier_offline_then_online linux_ppc64 0x0007 0x0002 0
           (@one_core linux_ppc64) idle_device).
  - by_evaluation.
  - eexists. reflexivity.
  - left. reflexivity.
  - by_evaluation.
  - by_evaluation.
  - left. reflexivity.
Defined.

(** ** Building the driver's table *)

Section driver_init.

Lemma driver_init_loop_ok T n (i : nat) pre post :
  (i + n ≤ length T)%nat →
  (length (filter (λ s, is_Some (enter s)) (take n (drop i T)))
   ≤ length post)%nat →
  driver_init_loop T n (Z.of_nat i)
    {| states := pre ++ post; state_count := Z.of_nat (length pre) |}
  = Ok {| states :=
            pre ++ filter (λ s, is_Some (enter s)) (take n (drop i T))
            ++ drop (length (filter (λ s, is_Some (enter s))
                               (take n (drop i T)))) post;
          state_count :=
            Z.of_nat (length pre
                      + length (filter (λ s, is_Some (enter s))
                                  (take n (drop i T)))) |}.
Proof.
  revert i pre post. induction n as [|n IH]; intros i pre post Hi.
  - cbn. intros _. by rewrite Nat.add_0_r.
  - destruct (lookup_lt_is_Some_2 T i) as [s Hs]; [lia|].
    rewrite (drop_S _ _ _ Hs). cbn [take driver_init_loop].
    rewrite array_get_nat, Hs.
    replace (Z.of_nat i + 1) with (Z.of_nat (S i)) by lia.
    destruct (enter s) as [fn|] eqn:Hfn.
    + rewrite filter_cons_True by (by rewrite Hfn). cbn [length].
      intros Hroom. destruct post as [|p post]; [cbn in Hroom; lia|].
      cbn [state_count states]. rewrite array_get_nat.
      rewrite lookup_app_r, Nat.sub_diag by lia. cbn [lookup list_lookup].
      rewrite Nat2Z.id.
      replace (length pre) with (length pre + 0)%nat at 1 by lia.
      rewrite insert_app_r. cbn [insert list_insert].
      replace (pre ++ s :: post) with ((pre ++ [s]) ++ post)
        by (by rewrite <- app_assoc).
      replace (Z.of_nat (length pre) + 1)
        with (Z.of_nat (length (pre ++ [s])))
        by (rewrite length_app; cbn; lia).
      rewrite IH by (cbn in Hroom; lia).
      rewrite <- !app_assoc, length_app. cbn. do 2 f_equal. lia.
    + rewrite filter_cons_False by (rewrite Hfn; by intros [? ?]).
      intros Hroom. by apply IH; [lia|].
Qed.


(** X13.  [powernv_cpuidle_driver_init] copies, in table order, the states
    among the first [max_idle_state] of the table that have an [enter]
    callback, skipping the others: when the table has that many entries
    and the driver has room, the driver's [state_count] is the number
    copied, its first states are the copies, its other slots are as
    before, its [cpumask] is [cpu_present_mask], and the result is 0. *)
Theorem driver_init_copies_states_with_callbacks m :
  0 ≤ max_idle_state m ≤ Z.of_nat (length (state_table m)) →
  (length (filter (λ s, is_Some (enter s))
             (take (Z.to_nat (max_idle_state m)) (state_table m)))
   ≤ length (states (powernv_idle_driver m)))%nat →
  powernv_cpuidle_driver_init m
  = Ok (0,
        {| module_globals := module_globals m;
           max_idle_state := max_idle_state m;
           cpuidle_state_table := cpuidle_state_table m;
           powernv_idle_driver :=
             {| states :=
                  filter (λ s, is_Some (enter s))
                    (take (Z.to_nat (max_idle_state m)) (state_table m))
                  ++ drop (length (filter (λ s, is_Some (enter s))
                                     (take (Z.to_nat (max_idle_state m))
                                        (state_table m))))
                       (states (powernv_idle_driver m));
                state_count :=
                  Z.of_nat (length (filter (λ s, is_Some (enter s))
                                      (take (Z.to_nat (max_idle_state m))
                                         (state_table m)))) |};
           powernv_idle_driver_cpumask := Some ptr_cpu_present_mask |}).
Proof.
  intros Hmax Hroom. unfold powernv_cpuidle_driver_init.
  pose proof (driver_init_loop_ok (state_table m)
                (Z.to_nat (max_idle_state m)) 0 []
                (states (powernv_idle_driver m))
                ltac:(lia) Hroom) as Hloop.
  rewrite drop_0 in Hloop. cbn [app length Nat.add] in Hloop.
  change (Z.of_nat 0) with 0 in Hloop.
  rewrite Hloop. reflexivity.
Qed.

End driver_init.

(** X13, witness: the boot-time table with [max_idle_state] 3, the fourth
    entry having no callback. *)
Lemma driver_init_copies_states_with_callbacks_witness :
  powernv_cpuidle_driver_init
    {| module_globals := @boot_globals linux_ppc64;
       max_idle_state := 4;
       cpuidle_state_table := Some ptr_powernv_states;
       powernv_idle_driver := @powernv_idle_driver_init linux_boot;
       powernv_idle_driver_cpumask := None |}
  = Ok (0,
        {| module_globals := @boot_globals linux_ppc64;
           max_idle_state := 4;
           cpuidle_state_table := Some ptr_powernv_states;
           powernv_idle_driver :=
             {| states := take 3 (@powernv_states_init linux_ppc64)
                          ++ replicate 7 zero_state;
                state_count := 3 |};
           powernv_idle_driver_cpumask := Some ptr_cpu_present_mask |}).
Proof.
  apply (driver_init_copies_states_with_callbacks
           {| module_globals := @boot_globals linux_ppc64;
              max_idle_state := 4;
              cpuidle_state_table := Some ptr_powernv_states;
              powernv_idle_driver := @powernv_idle_driver_init linux_boot;
              powernv_idle_driver_cpumask := None |}).
  - simpl. lia.
  - vm_compute. lia.
Defined.

(** ** From the probe to the registered driver *)

Section startup_facts.
Context `{platform} `{boot_platform}.




End startup_facts.

Section startup_claims.
Context `{platform} `{boot_platform}.





(** X16.  When idle is overridden or the firmware is not OPALv3 (and
    [ENODEV] is not 0), [powernv_processor_idle_init] returns [-ENODEV]
    and leaves the module and the kernel as they were: no table is
    probed, no driver or notifier is registered, nothing is logged. *)
Theorem init_refuses_without_opalv3 env m k :
  ENODEV ≠ 0 →
  cpuidle_disable env ≠ IDLE_NO_OVERRIDE
  ∨ firmware_has_feature_OPALv3 env = false →
  powernv_processor_idle_init env m k = Ok (- ENODEV, m, k).
Proof.
  intros Herr Hcase. unfold powernv_processor_idle_init.
  assert (Hprobe : powernv_idle_probe env m = Ok (- ENODEV, m)).
  { unfold powernv_idle_probe. case_bool_decide; [done|].
    destruct Hcase as [ | -> ]; done. }
  rewrite Hprobe. cbn [obind]. by rewrite bool_decide_true by lia.
Qed.

(** X17.  Whenever [powernv_processor_idle_init] returns, the hotplug
    notifier has been registered exactly when the result is 0: a
    non-zero result leaves the list of cpu notifiers as it was, and the
    result 0 appends [setup_hotplug_notifier] to it once and logs the
    registration. *)
Theorem init_registers_notifier_only_on_success env m k r m' k' :
  powernv_processor_idle_init env m k = Ok (r, m', k') →
  (r ≠ 0 ∧ cpu_notifiers k' = cpu_notifiers k)
  ∨ (r = 0
     ∧ cpu_notifiers k' = cpu_notifiers k ++ [setup_hotplug_notifier]
     ∧ last (kmsg (module_globals m'))
       = Some (KERN_DEBUG ++ "powernv_idle_driver registered" ++ LF)%string).
Proof.
  unfold powernv_processor_idle_init.
  destruct (powernv_idle_probe env m) as [[r1 m1]| |]; cbn [obind];
    [|done..].
  case_bool_decide as Hr1; [intros [= <- <- <-]; by left|].
  destruct (powernv_cpuidle_driver_init m1) as [[r2 m2]| |]; cbn [obind];
    [|done..].
  unfold cpuidle_register.
  destruct (cpuidle_register_core _ _ _) as [r3 core].
  case_bool_decide as Hr3; intros [= <- <- <-].
  - by left.
  - right. cbn. by rewrite last_snoc.
Qed.

End startup_claims.



(** X16, witness: firmware without OPALv3. *)
Lemma init_refuses_without_opalv3_witness :
  @powernv_processor_idle_init linux_ppc64 linux_boot
    {| cpuidle_disable := 0;
       firmware_has_feature_OPALv3 := false;
       boot_device_tree := ∅ |}
    loaded_module empty_kernel
  = Ok (- 19, loaded_module, empty_kernel).
Proof.
  apply (@init_refuses_without_opalv3 linux_ppc64 linux_boot
           {| cpuidle_disable := 0;
              firmware_has_feature_OPALv3 := false;
              boot_device_tree := ∅ |}
           loaded_module empty_kernel).
  - by_evaluation.
  - right. reflexivity.
Defined.

(** X17, witness: the concrete start-up succeeds. *)
Lemma init_registers_notifier_only_on_success_witness :
  (0 ≠ 0 ∧ cpu_notifiers initialised_kernel = cpu_notifiers empty_kernel)
  ∨ (0 = 0
     ∧ cpu_notifiers initialised_kernel
       = cpu_notifiers empty_kernel ++ [setup_hotplug_notifier]
     ∧ last (kmsg (module_globals initialised_module))
       = Some (KERN_DEBUG ++ "powernv_idle_driver registered" ++ LF)%string).
Proof.
  apply (@init_registers_notifier_only_on_success linux_ppc64 linux_boot
           opal_boot_env loaded_module empty_kernel 0
           initialised_module initialised_kernel).
  by_evaluation.
Defined.
